(** * TallieRestaurantApp: restaurant table-reservation API

    A shallow embedding of the two controllers
    ([controller/restaurantController.js],
    [controller/reservationController.js]), of the SQL statements they send
    through [db/db.js] against the schema of [model/schema.js], and of the
    JavaScript and SQLite built-ins those statements and handlers rely on.

    Conventions of the embedding.
    - An absolute time is an integer number of milliseconds since the Unix
      epoch ([Date.prototype.getTime]).  The ISO-8601 text of a validated
      [start_time] is represented by the instant it denotes.  The finite
      range of JavaScript dates is not modelled.
    - SQLite's [datetime(x)] renders an instant as ['YYYY-MM-DD HH:MM:SS'],
      dropping the fraction of a second; the comparisons the overlap query
      makes on such texts are made here on the whole-second count they
      denote (the two orders agree on the years 0000 to 9999 that
      [datetime] renders).
    - The runtime's time zone and its [Date] parser are parameters
      ([JS.Runtime]).
    - A handler is a computation over the store that also records every
      statement it sends to the database.  Requests are served one at a
      time ([Api]); the one interleaving the development looks at, two
      reservation handlers that both check before either inserts, is
      written out in [Race]. *)

From Stdlib Require Import ZArith List Bool Lia Ascii String DecimalString.
From Stdlib Require Import Sorting.Sorted Permutation.
Import ListNotations.
Local Open Scope Z_scope.

(** ** Decimal digits and fixed-width fields *)

Module Text.

Definition isDigit (c : ascii) : bool :=
  ((48 <=? nat_of_ascii c) && (nat_of_ascii c <=? 57))%nat.

Definition digitValue (c : ascii) : Z := Z.of_nat (nat_of_ascii c) - 48.

Definition digitChar (d : Z) : ascii := ascii_of_nat (Z.to_nat (48 + d)).

Fixpoint allDigits (s : string) : bool :=
  match s with
  | EmptyString => true
  | String c r => isDigit c && allDigits r
  end.

Fixpoint digitsValue (s : string) (acc : Z) : Z :=
  match s with
  | EmptyString => acc
  | String c r => digitsValue r (10 * acc + digitValue c)
  end.

(** Zero-padded decimal fields, as [%02d], [%03d] and [%04d] print a
    number that fits the width. *)
Definition twoDigits (n : Z) : string :=
  String (digitChar (n / 10 mod 10)) (String (digitChar (n mod 10)) EmptyString).

Definition threeDigits (n : Z) : string :=
  String (digitChar (n / 100 mod 10)) (twoDigits n).

Definition fourDigits (n : Z) : string :=
  String (digitChar (n / 1000 mod 10)) (threeDigits n).

Definition sixDigits (n : Z) : string :=
  String (digitChar (n / 100000 mod 10))
    (String (digitChar (n / 10000 mod 10)) (fourDigits n)).

Definition charAt (s : string) (i : nat) (c : ascii) : bool :=
  match String.get i s with
  | Some c' => Ascii.eqb c c'
  | None => false
  end.

(** The decimal number written in [s] at [start], [len] digits wide. *)
Definition field (s : string) (start len : nat) : option Z :=
  let f := substring start len s in
  if allDigits f && (String.length f =? len)%nat
  then Some (digitsValue f 0) else None.

Definition concat (parts : list string) : string :=
  fold_right String.append EmptyString parts.

End Text.

(** ** The proleptic Gregorian calendar *)

Module Calendar.

Record civil : Type := { year : Z; month : Z; day : Z }.

Definition isLeapYear (y : Z) : bool :=
  (y mod 4 =? 0) && (negb (y mod 100 =? 0) || (y mod 400 =? 0)).

Definition daysInMonth (y m : Z) : Z :=
  if m =? 2 then (if isLeapYear y then 29 else 28)
  else if (m =? 4) || (m =? 6) || (m =? 9) || (m =? 11) then 30
  else 31.

Definition validCivil (c : civil) : bool :=
  (1 <=? month c) && (month c <=? 12)
  && (1 <=? day c) && (day c <=? daysInMonth (year c) (month c)).

Definition nextDay (c : civil) : civil :=
  if day c <? daysInMonth (year c) (month c)
  then {| year := year c; month := month c; day := day c + 1 |}
  else if month c <? 12
  then {| year := year c; month := month c + 1; day := 1 |}
  else {| year := year c + 1; month := 1; day := 1 |}.

Definition prevDay (c : civil) : civil :=
  if 1 <? day c
  then {| year := year c; month := month c; day := day c - 1 |}
  else if 1 <? month c
  then {| year := year c; month := month c - 1;
          day := daysInMonth (year c) (month c - 1) |}
  else {| year := year c - 1; month := 12; day := 31 |}.

Definition epoch : civil := {| year := 1970; month := 1; day := 1 |}.

(** The civil date [n] days after (before, for negative [n]) 1970-01-01. *)
Definition civilOfDays (n : Z) : civil :=
  match n with
  | Z0 => epoch
  | Zpos p => Pos.iter nextDay epoch p
  | Zneg p => Pos.iter prevDay epoch p
  end.

(** Days from 1970-01-01 to the civil date [y]-[m]-[d]; a day beyond the
    end of month [m] counts on into the next month. *)
Definition daysFromCivil (y m d : Z) : Z :=
  let y' := if m <=? 2 then y - 1 else y in
  let era := y' / 400 in
  let yoe := y' - era * 400 in
  let doy := (153 * (if 2 <? m then m - 3 else m + 9) + 2) / 5 + d - 1 in
  let doe := yoe * 365 + yoe / 4 - yoe / 100 + doy in
  era * 146097 + doe - 719468.

Definition dayNumber (t : Z) : Z := t / 86400000.
Definition hourOfDay (t : Z) : Z := (t / 3600000) mod 24.
Definition minuteOfHour (t : Z) : Z := (t / 60000) mod 60.
Definition secondOfMinute (t : Z) : Z := (t / 1000) mod 60.
Definition milliOfSecond (t : Z) : Z := t mod 1000.

Definition dateText (c : civil) : string :=
  Text.concat [Text.fourDigits (year c); "-"%string;
               Text.twoDigits (month c); "-"%string;
               Text.twoDigits (day c)].

Definition timeText (t : Z) : string :=
  Text.concat [Text.twoDigits (hourOfDay t); ":"%string;
               Text.twoDigits (minuteOfHour t); ":"%string;
               Text.twoDigits (secondOfMinute t)].

End Calendar.

(** ** JavaScript built-ins used by the handlers *)

Module JS.

(** [n.toString()] for an integer [n]. *)
Definition Number_toString (n : Z) : string :=
  NilZero.string_of_int (Z.to_int n).

Fixpoint repeatChar (c : ascii) (n : nat) : string :=
  match n with
  | O => EmptyString
  | S k => String c (repeatChar c k)
  end.

(** [s.padStart(targetLength, c)] for a one-character pad string. *)
Definition padStart (s : string) (targetLength : nat) (c : ascii) : string :=
  String.append (repeatChar c (targetLength - String.length s)) s.

(** [a >= b] and [a <= b] on strings: code-unit lexicographic order. *)
Definition string_ge (a b : string) : bool := String.leb b a.
Definition string_le (a b : string) : bool := String.leb a b.

(** [s.split(':')] *)
Fixpoint splitColon (s : string) (cur : string) : list string :=
  match s with
  | EmptyString => [cur]
  | String c r =>
      if Ascii.eqb c ":"%char
      then cur :: splitColon r EmptyString
      else splitColon r (String.append cur (String c EmptyString))
  end.

Definition split_colon (s : string) : list string := splitColon s EmptyString.

(** [Number(s)] on a string of decimal digits, the only strings the
    stored opening and closing times hand to it; [None] is [NaN], taken
    for every other string. *)
Definition Number (s : string) : option Z :=
  if Text.allDigits s then Some (Text.digitsValue s 0) else None.

(** White space: tab, line feed, vertical tab, form feed, carriage return
    and space. *)
Definition isWhiteSpace (c : ascii) : bool :=
  match nat_of_ascii c with
  | 9%nat | 10%nat | 11%nat | 12%nat | 13%nat | 32%nat => true
  | _ => false
  end.

Fixpoint skipWhiteSpace (s : string) : string :=
  match s with
  | String c r => if isWhiteSpace c then skipWhiteSpace r else s
  | EmptyString => EmptyString
  end.

Fixpoint leadingDigits (s : string) (acc : option Z) : option Z :=
  match s with
  | String c r =>
      if Text.isDigit c
      then leadingDigits r
             (Some (10 * match acc with Some a => a | None => 0 end
                    + Text.digitValue c))
      else acc
  | EmptyString => acc
  end.

(** [parseInt(s, 10)]: leading white space is skipped, an optional sign is
    read, then the longest run of decimal digits; [None] is [NaN].  The
    result is the exact integer: the rounding of doubles beyond 2^53 is
    not modelled. *)
Definition parseInt (s : string) : option Z :=
  match skipWhiteSpace s with
  | String "-" r => option_map Z.opp (leadingDigits r None)
  | String "+" r => leadingDigits r None
  | t => leadingDigits t None
  end.

(** Truthiness of a string and of a number. *)
Definition truthyString (s : string) : bool :=
  match s with EmptyString => false | _ => true end.

Definition truthyNumber (n : Z) : bool := negb (n =? 0).

(** The part of the runtime the handlers depend on but do not define:
    the local time zone ([utcOffsetMinutes t] is what must be added to the
    UTC instant [t] to read the local wall clock) and [new Date(text)]
    ([None] stands for an invalid date). *)
Record Runtime : Type := {
  utcOffsetMinutes : Z -> Z;
  Date_parse : string -> option Z
}.

Definition localMillis (rt : Runtime) (t : Z) : Z :=
  t + utcOffsetMinutes rt t * 60000.

Definition getHours (rt : Runtime) (t : Z) : Z :=
  (localMillis rt t / 3600000) mod 24.

Definition getMinutes (rt : Runtime) (t : Z) : Z :=
  (localMillis rt t / 60000) mod 60.

(** [new Date(t).toISOString()]: [YYYY-MM-DDTHH:mm:ss.sssZ], the year
    written with a sign and six digits outside 0000..9999. *)
Definition yearText (y : Z) : string :=
  if (0 <=? y) && (y <=? 9999) then Text.fourDigits y
  else if y <? 0 then String "-" (Text.sixDigits (- y))
  else String "+" (Text.sixDigits y).

Definition toISOString (t : Z) : string :=
  let c := Calendar.civilOfDays (Calendar.dayNumber t) in
  Text.concat [yearText (Calendar.year c); "-"%string;
               Text.twoDigits (Calendar.month c); "-"%string;
               Text.twoDigits (Calendar.day c); "T"%string;
               Calendar.timeText t; "."%string;
               Text.threeDigits (Calendar.milliOfSecond t); "Z"%string].

(** [new Date(text)] on the zoneless date-time form [YYYY-MM-DDTHH:mm:ss],
    which is read as local time: month 01..12, day 01..31, hour 00..23
    (or exactly 24:00:00), minute and second 00..59; a text of this form
    with a field out of these ranges is an invalid date.  Texts of any
    other form are not covered: this definition gives [None] for them
    too.  The local zone is a fixed offset here. *)
Definition parseLocalDateTime (offsetMinutes : Z) (s : string) : option Z :=
  match Text.field s 0 4, Text.field s 5 2, Text.field s 8 2,
        Text.field s 11 2, Text.field s 14 2, Text.field s 17 2 with
  | Some y, Some mo, Some d, Some h, Some mi, Some se =>
      if (String.length s =? 19)%nat
         && Text.charAt s 4 "-" && Text.charAt s 7 "-"
         && Text.charAt s 10 "T"
         && Text.charAt s 13 ":" && Text.charAt s 16 ":"
         && (1 <=? mo) && (mo <=? 12) && (1 <=? d) && (d <=? 31)
         && (((h <=? 23) && (mi <=? 59) && (se <=? 59))
             || ((h =? 24) && (mi =? 0) && (se =? 0)))
      then Some (Calendar.daysFromCivil y mo d * 86400000
                 + h * 3600000 + mi * 60000 + se * 1000
                 - offsetMinutes * 60000)
      else None
  | _, _, _, _, _, _ => None
  end.

(** A runtime whose local zone is a fixed offset from UTC. *)
Definition fixedOffsetRuntime (offsetMinutes : Z) : Runtime :=
  {| utcOffsetMinutes := fun _ => offsetMinutes;
     Date_parse := parseLocalDateTime offsetMinutes |}.

End JS.

(** ** SQLite date and time functions *)

Module SQLite.

(** [datetime(x)] as the query compares it: whole seconds. *)
Definition datetime (t : Z) : Z := t / 1000.

(** [datetime(datetime(x), '+' || n || ' minutes')] *)
Definition datetime_plus_minutes (t n : Z) : Z := datetime t + 60 * n.

Definition inRange (c : Calendar.civil) : bool :=
  (0 <=? Calendar.year c) && (Calendar.year c <=? 9999).

(** [DATE(x)]: the text [YYYY-MM-DD], or NULL outside years 0000..9999. *)
Definition date (t : Z) : option string :=
  let c := Calendar.civilOfDays (Calendar.dayNumber t) in
  if inRange c then Some (Calendar.dateText c) else None.

(** [datetime(x)] as a text, [YYYY-MM-DD HH:MM:SS]. *)
Definition datetime_text (t : Z) : option string :=
  let c := Calendar.civilOfDays (Calendar.dayNumber t) in
  if inRange c
  then Some (Text.concat [Calendar.dateText c; " "%string; Calendar.timeText t])
  else None.

End SQLite.

(** ** Pattern recognisers of the validation schemas *)

Module Pattern.

(** [/^\d{2}:\d{2}$/] *)
Definition matches_hhmm (s : string) : bool :=
  match s with
  | String h1 (String h2 (String ":" (String m1 (String m2 EmptyString)))) =>
      Text.isDigit h1 && Text.isDigit h2 && Text.isDigit m1 && Text.isDigit m2
  | _ => false
  end.

(** [/^\d{4}-\d{2}-\d{2}$/] *)
Definition matches_date (s : string) : bool :=
  match s with
  | String y1 (String y2 (String y3 (String y4 (String "-"
      (String m1 (String m2 (String "-"
         (String d1 (String d2 EmptyString))))))))) =>
      Text.isDigit y1 && Text.isDigit y2 && Text.isDigit y3 && Text.isDigit y4
      && Text.isDigit m1 && Text.isDigit m2 && Text.isDigit d1 && Text.isDigit d2
  | _ => false
  end.

(** [/^\d{10,}$/] *)
Definition matches_phone (s : string) : bool :=
  Text.allDigits s && (10 <=? String.length s)%nat.

End Pattern.

(** ** The relational schema ([model/schema.js]) *)

Module Schema.

Inductive Status : Type := pending | confirmed | completed | cancelled.

Record Restaurant : Type := {
  rst_id : Z;
  rst_name : string;
  opening_time : string;
  closing_time : string;
  rst_created_at : string
}.

Record Table : Type := {
  tbl_id : Z;
  tbl_restaurant_id : Z;
  table_number : Z;
  capacity : Z
}.

Record Reservation : Type := {
  res_id : Z;
  res_restaurant_id : Z;
  res_table_id : Z;
  customer_name : string;
  phone : string;
  party_size : Z;
  start_time : Z;
  duration_minutes : Z;
  status : Status;
  res_created_at : string
}.

(** The three tables, each in rowid order. *)
Record DB : Type := {
  restaurants : list Restaurant;
  tables : list Table;
  reservations : list Reservation
}.

Definition empty : DB :=
  {| restaurants := []; tables := []; reservations := [] |}.

(** [INTEGER PRIMARY KEY AUTOINCREMENT]: one more than the largest rowid;
    no statement of the application deletes a row. *)
Definition nextId (ids : list Z) : Z := 1 + fold_right Z.max 0 ids.

End Schema.

(** ** The statements of the application and the handler monad
    ([db/db.js]) *)

Module Db.
Import Schema.

(** Every SQL text the controllers send, with its bound parameters. *)
Inductive Statement : Type :=
| SelectRestaurantById (id : Z)
| SelectAllRestaurants
| SelectTablesOfRestaurant (restaurant_id : Z)
| SelectTableInRestaurant (table_id restaurant_id : Z)
| SelectTableByNumber (restaurant_id number : Z)
| SelectTablesByCapacity (restaurant_id party : Z)
| SelectOverlapping (table_id endDate startDate startDate' : Z)
| SelectReservationById (id : Z)
| SelectReservationsOfDay (restaurant_id : Z) (date : string)
| InsertRestaurant (name opening closing : string)
| InsertTable (restaurant_id number cap : Z)
| InsertReservation (restaurant_id table_id : Z) (name phone_ : string)
    (party start duration : Z)
| UpdateReservationStatus (s : Status) (id : Z).



(** The process: the store and the statements sent so far. *)
Record World : Type := { store : DB; sent : list Statement }.

Definition fresh (db : DB) : World := {| store := db; sent := [] |}.

Definition Handler (A : Type) : Type := World -> A * World.

Definition ret {A : Type} (a : A) : Handler A := fun w => (a, w).

Definition bind {A B : Type} (m : Handler A) (k : A -> Handler B) : Handler B :=
  fun w => let (a, w') := m w in k a w'.

Definition record (s : Statement) (w : World) : World :=
  {| store := store w; sent := sent w ++ [s] |}.

(** A SELECT: its text and the rows it yields on a store. *)
Record Query (A : Type) : Type := {
  q_text : Statement;
  q_rows : DB -> list A
}.
Arguments q_text {A}.
Arguments q_rows {A}.

(** An INSERT or UPDATE: its text and its effect; [None] is a statement
    the engine rejects, [Some (lastID, db')] its outcome otherwise. *)
Record Command : Type := {
  c_text : Statement;
  c_apply : DB -> option (Z * DB)
}.

(** [all(sql, params)]: every row. *)
Definition dbAll {A : Type} (q : Query A) : Handler (list A) :=
  fun w => (q_rows q (store w), record (q_text q) w).

(** [get(sql, params)]: the first row, or undefined. *)
Definition dbGet {A : Type} (q : Query A) : Handler (option A) :=
  fun w => (hd_error (q_rows q (store w)), record (q_text q) w).

(** [run(sql, params)]: resolves to the last inserted rowid, or rejects. *)
Definition dbRun (c : Command) : Handler (option Z) :=
  fun w =>
    match c_apply c (store w) with
    | Some (id, db') => (Some id, {| store := db'; sent := sent w ++ [c_text c] |})
    | None => (None, record (c_text c) w)
    end.

Definition isActive (s : Status) : bool :=
  match s with confirmed | pending => true | _ => false end.

(** [SELECT * FROM restaurants WHERE id = ?] *)
Definition restaurantById (id : Z) : Query Restaurant :=
  {| q_text := SelectRestaurantById id;
     q_rows := fun db => filter (fun r => rst_id r =? id) (restaurants db) |}.

(** [SELECT * FROM tables WHERE id = ? AND restaurant_id = ?] *)
Definition tableInRestaurant (table_id restaurant_id : Z) : Query Table :=
  {| q_text := SelectTableInRestaurant table_id restaurant_id;
     q_rows := fun db =>
       filter (fun t => (tbl_id t =? table_id)
                        && (tbl_restaurant_id t =? restaurant_id))
              (tables db) |}.

(** [SELECT * FROM tables WHERE restaurant_id = ? AND table_number = ?] *)
Definition tableByNumber (restaurant_id number : Z) : Query Table :=
  {| q_text := SelectTableByNumber restaurant_id number;
     q_rows := fun db =>
       filter (fun t => (tbl_restaurant_id t =? restaurant_id)
                        && (table_number t =? number))
              (tables db) |}.

(** [ORDER BY] an integer column: a stable sort of the rows met in rowid
    order. *)
Fixpoint insertBy {A : Type} (key : A -> Z) (x : A) (l : list A) : list A :=
  match l with
  | [] => [x]
  | y :: r => if key x <? key y then x :: l else y :: insertBy key x r
  end.

Definition orderBy {A : Type} (key : A -> Z) (l : list A) : list A :=
  fold_left (fun acc x => insertBy key x acc) l [].

(** [SELECT * FROM tables WHERE restaurant_id = ? ORDER BY table_number] *)
Definition tablesOfRestaurant (restaurant_id : Z) : Query Table :=
  {| q_text := SelectTablesOfRestaurant restaurant_id;
     q_rows := fun db =>
       orderBy table_number
         (filter (fun t => tbl_restaurant_id t =? restaurant_id) (tables db)) |}.

(** [SELECT * FROM tables WHERE restaurant_id = ? AND capacity >= ?
     ORDER BY capacity] *)
Definition tablesByCapacity (restaurant_id party : Z) : Query Table :=
  {| q_text := SelectTablesByCapacity restaurant_id party;
     q_rows := fun db =>
       orderBy capacity
         (filter (fun t => (tbl_restaurant_id t =? restaurant_id)
                           && (party <=? capacity t))
                 (tables db)) |}.

(** The WHERE clause of the overlap query on one row:
    [table_id = ? AND status IN ('confirmed', 'pending') AND
     ((datetime(start_time) < datetime(?) AND
       datetime(datetime(start_time), '+' || duration_minutes || ' minutes')
         > datetime(?))
      OR (datetime(start_time) = datetime(?)))]. *)
Definition overlapsRow (table_id endDate startDate startDate' : Z)
    (r : Reservation) : bool :=
  (res_table_id r =? table_id)
  && isActive (status r)
  && (((SQLite.datetime (start_time r) <? SQLite.datetime endDate)
       && (SQLite.datetime_plus_minutes (start_time r) (duration_minutes r)
           >? SQLite.datetime startDate))
      || (SQLite.datetime (start_time r) =? SQLite.datetime startDate')).

Definition overlapping (table_id endDate startDate startDate' : Z)
    : Query Reservation :=
  {| q_text := SelectOverlapping table_id endDate startDate startDate';
     q_rows := fun db =>
       filter (overlapsRow table_id endDate startDate startDate')
              (reservations db) |}.

(** [SELECT * FROM reservations WHERE id = ?] *)
Definition reservationById (id : Z) : Query Reservation :=
  {| q_text := SelectReservationById id;
     q_rows := fun db => filter (fun r => res_id r =? id) (reservations db) |}.

(** [SELECT r.*, t.table_number, t.capacity FROM reservations r
     JOIN tables t ON r.table_id = t.id
     WHERE r.restaurant_id = ? AND DATE(r.start_time) = ?
     ORDER BY r.start_time]; the order is taken on the instants. *)
Definition onDate (date : string) (r : Reservation) : bool :=
  match SQLite.date (start_time r) with
  | Some d => String.eqb d date
  | None => false
  end.

Definition reservationsOfDay (restaurant_id : Z) (date : string)
    : Query (Reservation * Z * Z) :=
  {| q_text := SelectReservationsOfDay restaurant_id date;
     q_rows := fun db =>
       flat_map
         (fun r =>
            map (fun t => (r, table_number t, capacity t))
                (filter (fun t => res_table_id r =? tbl_id t) (tables db)))
         (orderBy start_time
            (filter (fun r => (res_restaurant_id r =? restaurant_id)
                              && onDate date r)
                    (reservations db))) |}.

(** [SELECT * FROM restaurants ORDER BY name]; the rows are not needed in
    name order by any property below and are left in rowid order. *)
Definition allRestaurants : Query Restaurant :=
  {| q_text := SelectAllRestaurants; q_rows := restaurants |}.

(** [INSERT INTO restaurants (name, opening_time, closing_time)
     VALUES (?, ?, ?)], run at database time [now]; [created_at] defaults
    to [datetime('now')] and is NOT NULL. *)
Definition insertRestaurant (now : Z) (name opening closing : string)
    : Command :=
  {| c_text := InsertRestaurant name opening closing;
     c_apply := fun db =>
       match SQLite.datetime_text now with
       | None => None
       | Some stamp =>
           let id := nextId (map rst_id (restaurants db)) in
           Some (id,
                 {| restaurants := restaurants db ++
                      [{| rst_id := id; rst_name := name;
                          opening_time := opening; closing_time := closing;
                          rst_created_at := stamp |}];
                    tables := tables db;
                    reservations := reservations db |})
       end |}.

(** [INSERT INTO tables (restaurant_id, table_number, capacity)
     VALUES (?, ?, ?)], under the foreign key on [restaurant_id] and
    [UNIQUE (restaurant_id, table_number)]. *)
Definition insertTable (restaurant_id number cap : Z) : Command :=
  {| c_text := InsertTable restaurant_id number cap;
     c_apply := fun db =>
       if existsb (fun r => rst_id r =? restaurant_id) (restaurants db)
          && negb (existsb (fun t => (tbl_restaurant_id t =? restaurant_id)
                                     && (table_number t =? number))
                           (tables db))
       then
         let id := nextId (map tbl_id (tables db)) in
         Some (id,
               {| restaurants := restaurants db;
                  tables := tables db ++
                    [{| tbl_id := id; tbl_restaurant_id := restaurant_id;
                        table_number := number; capacity := cap |}];
                  reservations := reservations db |})
       else None |}.

(** [INSERT INTO reservations (restaurant_id, table_id, customer_name,
     phone, party_size, start_time, duration_minutes, status)
     VALUES (?, ?, ?, ?, ?, ?, ?, 'confirmed')], run at database time
    [now], under the two foreign keys; [created_at] defaults to
    [datetime('now')] and is NOT NULL. *)
Definition insertReservation (now : Z) (restaurant_id table_id : Z)
    (name phone_ : string) (party start duration : Z) : Command :=
  {| c_text := InsertReservation restaurant_id table_id name phone_
                 party start duration;
     c_apply := fun db =>
       match SQLite.datetime_text now with
       | None => None
       | Some stamp =>
           if existsb (fun r => rst_id r =? restaurant_id) (restaurants db)
              && existsb (fun t => tbl_id t =? table_id) (tables db)
           then
             let id := nextId (map res_id (reservations db)) in
             Some (id,
                   {| restaurants := restaurants db;
                      tables := tables db;
                      reservations := reservations db ++
                        [{| res_id := id;
                            res_restaurant_id := restaurant_id;
                            res_table_id := table_id;
                            customer_name := name;
                            phone := phone_;
                            party_size := party;
                            start_time := start;
                            duration_minutes := duration;
                            status := confirmed;
                            res_created_at := stamp |}] |})
           else None
       end |}.

Definition setStatus (s : Status) (r : Reservation) : Reservation :=
  {| res_id := res_id r;
     res_restaurant_id := res_restaurant_id r;
     res_table_id := res_table_id r;
     customer_name := customer_name r;
     phone := phone r;
     party_size := party_size r;
     start_time := start_time r;
     duration_minutes := duration_minutes r;
     status := s;
     res_created_at := res_created_at r |}.

(** [UPDATE reservations SET status = 'cancelled' WHERE id = ?] on one
    row. *)
Definition cancelRow (id : Z) (r : Reservation) : Reservation :=
  if res_id r =? id then setStatus cancelled r else r.

(** [UPDATE reservations SET status = ? WHERE id = ?], sent with
    ['cancelled'] for the status. *)
Definition cancelById (id : Z) : Command :=
  {| c_text := UpdateReservationStatus cancelled id;
     c_apply := fun db =>
       Some (0,
             {| restaurants := restaurants db;
                tables := tables db;
                reservations := map (cancelRow id) (reservations db) |}) |}.

End Db.

(** ** Requests, responses and the validation schemas *)

Module Http.
Import Schema.

(** A JSON value of a request body.  A string in ISO-8601 UTC date-time
    form (what [z.string().datetime()] accepts), with or without a
    fraction of a second, is represented by the instant it denotes, to the
    millisecond as [new Date] reads it; [JString] carries every other
    string. *)
Inductive jsval : Type :=
| JNumber (n : Z)
| JString (s : string)
| JIsoDateTime (t : Z)
| JOther.

(** An object: its properties, the first binding of a key being the one
    that counts. *)
Definition jsobject : Type := list (string * jsval).

Fixpoint prop (o : jsobject) (k : string) : option jsval :=
  match o with
  | [] => None
  | (k', v) :: r => if String.eqb k' k then Some v else prop r k
  end.

(** [{ ...a, ...b }]: the properties of [b] override those of [a]. *)
Definition spread (a b : jsobject) : jsobject := b ++ a.

(** [z.number().int().positive()] *)
Definition z_positive_int (v : option jsval) : option Z :=
  match v with
  | Some (JNumber n) => if 0 <? n then Some n else None
  | _ => None
  end.

(** [z.number().int().positive().min(m)] *)
Definition z_positive_int_min (m : Z) (v : option jsval) : option Z :=
  match z_positive_int v with
  | Some n => if m <=? n then Some n else None
  | None => None
  end.

(** [z.string().min(1)] *)
Definition z_string_min1 (v : option jsval) : option string :=
  match v with
  | Some (JString s) => if (1 <=? String.length s)%nat then Some s else None
  | _ => None
  end.

(** [z.string().regex(re)] *)
Definition z_string_regex (re : string -> bool) (v : option jsval)
    : option string :=
  match v with
  | Some (JString s) => if re s then Some s else None
  | _ => None
  end.

(** [z.string().datetime()] *)
Definition z_string_datetime (v : option jsval) : option Z :=
  match v with
  | Some (JIsoDateTime t) => Some t
  | _ => None
  end.

Inductive Error : Type :=
| RestaurantNotFound
| TableNotFound
| CapacityExceeded (table_capacity requested : Z)
| OutOfHours (opening closing : string)
| AlreadyBooked
| TableNumberExists (number : Z)
| InvalidRestaurantIdInUrl
| BadDateFormat
| MissingParams
| ReservationNotFound
| Unexpected.

Record RestaurantInput : Type := {
  in_name : string;
  in_opening_time : string;
  in_closing_time : string
}.

Record TableInput : Type := {
  in_restaurant_id : Z;
  in_table_number : Z;
  in_capacity : Z
}.

Record ReservationInput : Type := {
  v_restaurant_id : Z;
  v_table_id : Z;
  v_customer_name : string;
  v_phone : string;
  v_party_size : Z;
  v_start_time : Z;
  v_duration_minutes : Z
}.

Record Slot : Type := {
  slot_time : Z;
  slot_table_id : Z;
  slot_table_number : Z
}.

(** The JSON a handler answers with.  [created_at] fields are texts. *)
Inductive Body : Type :=
| ErrorMessage (e : Error)
| FieldErrors
| RestaurantCreated (id : Z) (validated : RestaurantInput) (created_at : string)
| RestaurantWithTables (r : Restaurant) (ts : list Table)
| RestaurantList (rs : list Restaurant)
| TableCreated (id : Z) (validated : TableInput)
| ReservationCreated (id : Z) (validated : ReservationInput)
    (status_ : Status) (created_at : string)
| ReservationList (rows : list (Reservation * Z * Z))
| AvailableSlots (slots : list Slot)
| ReservationCancelled (id : Z).

Record Response : Type := { code : Z; body : Body }.

Definition respond (c : Z) (b : Body) : Response := {| code := c; body := b |}.

(** The two clock readings of a request that creates a row: the database's
    [datetime('now')] and the handler's later [new Date()]. *)
Record Clock : Type := { db_now : Z; js_now : Z }.

End Http.

(** ** [controller/reservationController.js] *)

Module ReservationController.
Import Schema Db Http.

Notation "x <- c ;; k" := (bind c (fun x => k))
  (at level 61, c at next level, right associativity).

Definition createReservationSchema (o : jsobject) : option ReservationInput :=
  match z_positive_int (prop o "restaurant_id"),
        z_positive_int (prop o "table_id"),
        z_string_min1 (prop o "customer_name"),
        z_string_regex Pattern.matches_phone (prop o "phone"),
        z_positive_int (prop o "party_size"),
        z_string_datetime (prop o "start_time"),
        z_positive_int_min 15 (prop o "duration_minutes") with
  | Some rid, Some tid, Some name, Some ph, Some party, Some start, Some dur =>
      Some {| v_restaurant_id := rid; v_table_id := tid;
              v_customer_name := name; v_phone := ph;
              v_party_size := party; v_start_time := start;
              v_duration_minutes := dur |}
  | _, _, _, _, _, _, _ => None
  end.

(** The wall-clock text [HH:MM] the handler builds from a date. *)
Definition hhmm (rt : JS.Runtime) (t : Z) : string :=
  let hour := JS.padStart (JS.Number_toString (JS.getHours rt t)) 2 "0" in
  let minute := JS.padStart (JS.Number_toString (JS.getMinutes rt t)) 2 "0" in
  Text.concat [hour; ":"%string; minute].

Definition isWithinOperatingHours (rt : JS.Runtime) (restaurant : Restaurant)
    (startTime endTime : Z) : bool :=
  let startTimeStr := hhmm rt startTime in
  let endTimeStr := hhmm rt endTime in
  let startsAfterOpening := JS.string_ge startTimeStr (opening_time restaurant) in
  let endsBeforeClosing := JS.string_le endTimeStr (closing_time restaurant) in
  startsAfterOpening && endsBeforeClosing.

Definition checkForOverlaps (table_id start_time_ duration : Z) : Handler bool :=
  let startDate := start_time_ in
  let endDate := startDate + duration * 60000 in
  overlapping_ <- dbAll (overlapping table_id endDate startDate startDate) ;;
  ret (0 <? Z.of_nat (List.length overlapping_)).

Definition createReservation (rt : JS.Runtime) (clk : Clock) (req_body : jsobject)
    : Handler Response :=
  match createReservationSchema req_body with
  | None => ret (respond 400 FieldErrors)
  | Some validated =>
      restaurant <- dbGet (restaurantById (v_restaurant_id validated)) ;;
      match restaurant with
      | None => ret (respond 404 (ErrorMessage RestaurantNotFound))
      | Some restaurant =>
          table <- dbGet (tableInRestaurant (v_table_id validated)
                                            (v_restaurant_id validated)) ;;
          match table with
          | None => ret (respond 404 (ErrorMessage TableNotFound))
          | Some table =>
              if v_party_size validated >? capacity table
              then ret (respond 400 (ErrorMessage
                          (CapacityExceeded (capacity table)
                                            (v_party_size validated))))
              else
                let endTime :=
                  v_start_time validated + v_duration_minutes validated * 60000 in
                if negb (isWithinOperatingHours rt restaurant
                           (v_start_time validated) endTime)
                then ret (respond 400 (ErrorMessage
                            (OutOfHours (opening_time restaurant)
                                        (closing_time restaurant))))
                else
                  hasOverlap <- checkForOverlaps (v_table_id validated)
                                  (v_start_time validated)
                                  (v_duration_minutes validated) ;;
                  if (hasOverlap : bool)
                  then ret (respond 409 (ErrorMessage AlreadyBooked))
                  else
                    result <- dbRun
                                (insertReservation (db_now clk)
                                   (v_restaurant_id validated)
                                   (v_table_id validated)
                                   (v_customer_name validated)
                                   (v_phone validated)
                                   (v_party_size validated)
                                   (v_start_time validated)
                                   (v_duration_minutes validated)) ;;
                    match result with
                    | None => ret (respond 500 (ErrorMessage Unexpected))
                    | Some id =>
                        ret (respond 201
                               (ReservationCreated id validated confirmed
                                  (JS.toISOString (js_now clk))))
                    end
          end
      end
  end.

Definition getReservationsByDate (restaurant_id : Z) (date : string)
    : Handler Response :=
  if negb (Pattern.matches_date date)
  then ret (respond 400 (ErrorMessage BadDateFormat))
  else
    restaurant <- dbGet (restaurantById restaurant_id) ;;
    match restaurant with
    | None => ret (respond 404 (ErrorMessage RestaurantNotFound))
    | Some _ =>
        reservations_ <- dbAll (reservationsOfDay restaurant_id date) ;;
        ret (respond 200 (ReservationList reservations_))
    end.

(** [for (let i = lo; i < hi; i += step)]: the values [i] takes, at most
    [fuel] of them. *)
Fixpoint forLoop (fuel : nat) (i hi step : Z) : list Z :=
  match fuel with
  | O => []
  | S k => if i <? hi then i :: forLoop k (i + step) hi step else []
  end.

(** The [(h, m)] pairs the two nested loops visit, in order. *)
Definition slotClock (openHour closeHour : Z) : list (Z * Z) :=
  flat_map (fun h => map (fun m => (h, m)) (forLoop 60 0 60 15))
           (forLoop (Z.to_nat (closeHour - openHour)) openHour closeHour 1).

(** [`${h.toString().padStart(2, '0')}:${m.toString().padStart(2, '0')}`] *)
Definition timeStr (h m : Z) : string :=
  Text.concat [JS.padStart (JS.Number_toString h) 2 "0"; ":"%string;
               JS.padStart (JS.Number_toString m) 2 "0"].

(** [`${date}T${timeStr}:00`] *)
Definition slotText (date : string) (hm : Z * Z) : string :=
  Text.concat [date; "T"%string; timeStr (fst hm) (snd hm); ":00"%string].

(** The inner [for (const table of availableTables)] loop. *)
Fixpoint firstFreeTable (availableTables : list Table) (slotDate : Z)
    : Handler (option Table) :=
  match availableTables with
  | [] => ret None
  | table :: rest =>
      hasOverlap <- checkForOverlaps (tbl_id table) slotDate 90 ;;
      if (hasOverlap : bool) then firstFreeTable rest slotDate
      else ret (Some table)
  end.

(** The two outer loops over the slots still to visit; [None] when
    [slotDate.toISOString()] throws on an invalid date. *)
Fixpoint scanSlots (rt : JS.Runtime) (date : string)
    (availableTables : list Table) (todo : list (Z * Z)) (slots : list Slot)
    : Handler (option (list Slot)) :=
  match todo with
  | [] => ret (Some slots)
  | hm :: rest =>
      match JS.Date_parse rt (slotText date hm) with
      | None => ret None
      | Some slotDate =>
          availableTable <- firstFreeTable availableTables slotDate ;;
          match availableTable with
          | Some table =>
              scanSlots rt date availableTables rest
                (slots ++ [{| slot_time := slotDate;
                              slot_table_id := tbl_id table;
                              slot_table_number := table_number table |}])
          | None => scanSlots rt date availableTables rest slots
          end
      end
  end.

(** [const [hour, minute] = text.split(':').map(Number)]: the hour. *)
Definition hourOf (text : string) : option Z :=
  match map JS.Number (JS.split_colon text) with
  | h :: _ => h
  | [] => None
  end.

(** The query string: a numeric parameter is the integer SQLite compares
    it as; [None] is an absent parameter. *)
Record AvailabilityQuery : Type := {
  q_restaurant_id : option Z;
  q_date : option string;
  q_party_size : option Z
}.

Definition getAvailableSlots (rt : JS.Runtime) (query : AvailabilityQuery)
    : Handler Response :=
  match q_restaurant_id query, q_date query, q_party_size query with
  | Some restaurant_id, Some date, Some party =>
      if negb (JS.truthyString date)
      then ret (respond 400 (ErrorMessage MissingParams))
      else
        restaurant <- dbGet (restaurantById restaurant_id) ;;
        match restaurant with
        | None => ret (respond 404 (ErrorMessage RestaurantNotFound))
        | Some restaurant =>
            availableTables <- dbAll (tablesByCapacity restaurant_id party) ;;
            match availableTables with
            | [] => ret (respond 200 (AvailableSlots []))
            | _ :: _ =>
                let todo :=
                  match hourOf (opening_time restaurant),
                        hourOf (closing_time restaurant) with
                  | Some openHour, Some closeHour => slotClock openHour closeHour
                  | _, _ => []
                  end in
                slots <- scanSlots rt date availableTables todo [] ;;
                match slots with
                | Some slots => ret (respond 200 (AvailableSlots slots))
                | None => ret (respond 500 (ErrorMessage Unexpected))
                end
            end
        end
  | _, _, _ => ret (respond 400 (ErrorMessage MissingParams))
  end.

Definition cancelReservation (id : Z) : Handler Response :=
  reservation <- dbGet (reservationById id) ;;
  match reservation with
  | None => ret (respond 404 (ErrorMessage ReservationNotFound))
  | Some _ =>
      _ <- dbRun (cancelById id) ;;
      ret (respond 200 (ReservationCancelled id))
  end.

End ReservationController.

(** ** [controller/restaurantController.js] *)

Module RestaurantController.
Import Schema Db Http.

Notation "x <- c ;; k" := (bind c (fun x => k))
  (at level 61, c at next level, right associativity).

Definition createRestaurantSchema (o : jsobject) : option RestaurantInput :=
  match z_string_min1 (prop o "name"),
        z_string_regex Pattern.matches_hhmm (prop o "opening_time"),
        z_string_regex Pattern.matches_hhmm (prop o "closing_time") with
  | Some name, Some opening, Some closing =>
      Some {| in_name := name; in_opening_time := opening;
              in_closing_time := closing |}
  | _, _, _ => None
  end.

Definition addTableSchema (o : jsobject) : option TableInput :=
  match z_positive_int (prop o "restaurant_id"),
        z_positive_int (prop o "table_number"),
        z_positive_int (prop o "capacity") with
  | Some rid, Some number, Some cap =>
      Some {| in_restaurant_id := rid; in_table_number := number;
              in_capacity := cap |}
  | _, _, _ => None
  end.

Definition createRestaurant (clk : Clock) (req_body : jsobject)
    : Handler Response :=
  match createRestaurantSchema req_body with
  | None => ret (respond 400 FieldErrors)
  | Some validated =>
      result <- dbRun
                  (insertRestaurant (db_now clk) (in_name validated)
                     (in_opening_time validated) (in_closing_time validated)) ;;
      match result with
      | None => ret (respond 500 (ErrorMessage Unexpected))
      | Some id =>
          ret (respond 201
                 (RestaurantCreated id validated (JS.toISOString (js_now clk))))
      end
  end.

Definition getRestaurant (id : Z) : Handler Response :=
  restaurant <- dbGet (restaurantById id) ;;
  match restaurant with
  | None => ret (respond 404 (ErrorMessage RestaurantNotFound))
  | Some restaurant =>
      tables_ <- dbAll (tablesOfRestaurant id) ;;
      ret (respond 200 (RestaurantWithTables restaurant tables_))
  end.

(** [req.params.restaurant_id ? parseInt(req.params.restaurant_id, 10)
     : undefined]: the outer [None] is [undefined], [Some None] is [NaN]. *)
Definition paramRestaurantId (param : option string) : option (option Z) :=
  match param with
  | Some s => if JS.truthyString s then Some (JS.parseInt s) else None
  | None => None
  end.

(** [{ ...(req.body || {}),
       ...(paramRestaurantId ? { restaurant_id: paramRestaurantId } : {}) }] *)
Definition dataToValidate (param : option (option Z)) (req_body : jsobject)
    : jsobject :=
  spread req_body
    (match param with
     | Some (Some n) =>
         if JS.truthyNumber n then [("restaurant_id"%string, JNumber n)] else []
     | _ => []
     end).

Definition addTable (param : option string) (req_body : jsobject)
    : Handler Response :=
  let paramRestaurantId_ := paramRestaurantId param in
  match paramRestaurantId_ with
  | Some None => ret (respond 400 (ErrorMessage InvalidRestaurantIdInUrl))
  | _ =>
      match addTableSchema (dataToValidate paramRestaurantId_ req_body) with
      | None => ret (respond 400 FieldErrors)
      | Some validated =>
          restaurant <- dbGet (restaurantById (in_restaurant_id validated)) ;;
          match restaurant with
          | None => ret (respond 404 (ErrorMessage RestaurantNotFound))
          | Some _ =>
              existing <- dbGet (tableByNumber (in_restaurant_id validated)
                                               (in_table_number validated)) ;;
              match existing with
              | Some _ =>
                  ret (respond 409 (ErrorMessage
                         (TableNumberExists (in_table_number validated))))
              | None =>
                  result <- dbRun
                              (insertTable (in_restaurant_id validated)
                                 (in_table_number validated)
                                 (in_capacity validated)) ;;
                  match result with
                  | None => ret (respond 500 (ErrorMessage Unexpected))
                  | Some id => ret (respond 201 (TableCreated id validated))
                  end
              end
          end
      end
  end.

Definition getAllRestaurants : Handler Response :=
  restaurants_ <- dbAll allRestaurants ;;
  ret (respond 200 (RestaurantList restaurants_)).

End RestaurantController.

(** ** The routes ([routes/index.js]) and the states they reach *)

Module Api.
Import Schema Db Http.

Inductive Request : Type :=
| POST_restaurants (req_body : jsobject)
| GET_restaurants
| GET_restaurant (id : Z)
| POST_tables (restaurant_id : option string) (req_body : jsobject)
| POST_reservations (req_body : jsobject)
| GET_reservations (restaurant_id : Z) (date : string)
| GET_availability (query : ReservationController.AvailabilityQuery)
| PATCH_cancel (id : Z).

Definition handle (rt : JS.Runtime) (clk : Clock) (req : Request)
    : Handler Response :=
  match req with
  | POST_restaurants b => RestaurantController.createRestaurant clk b
  | GET_restaurants => RestaurantController.getAllRestaurants
  | GET_restaurant id => RestaurantController.getRestaurant id
  | POST_tables p b => RestaurantController.addTable p b
  | POST_reservations b => ReservationController.createReservation rt clk b
  | GET_reservations id d => ReservationController.getReservationsByDate id d
  | GET_availability q => ReservationController.getAvailableSlots rt q
  | PATCH_cancel id => ReservationController.cancelReservation id
  end.

(** The answer to a request served on store [db], and the store after. *)
Definition answer {A : Type} (h : Handler A) (db : DB) : A := fst (h (fresh db)).
Definition after {A : Type} (h : Handler A) (db : DB) : DB :=
  store (snd (h (fresh db))).
Definition statements {A : Type} (h : Handler A) (db : DB) : list Statement :=
  sent (snd (h (fresh db))).

(** The stores the API can be in: the empty schema, then any sequence of
    requests, each served to completion before the next. *)
Inductive reachable (rt : JS.Runtime) : DB -> Prop :=
| reach_empty : reachable rt Schema.empty
| reach_request db clk req :
    reachable rt db -> reachable rt (after (handle rt clk req) db).

(** What serving one request can do to the store. *)
Inductive transition (db db' : DB) : Prop :=
| t_none : db' = db -> transition db db'
| t_restaurant (r : Restaurant) :
    Pattern.matches_hhmm (opening_time r) = true ->
    Pattern.matches_hhmm (closing_time r) = true ->
    db' = {| restaurants := restaurants db ++ [r];
             tables := tables db;
             reservations := reservations db |} ->
    transition db db'
| t_table (t : Table) :
    db' = {| restaurants := restaurants db;
             tables := tables db ++ [t];
             reservations := reservations db |} ->
    transition db db'
| t_reservation (r : Reservation) :
    status r = confirmed ->
    res_id r = nextId (map res_id (reservations db)) ->
    (forall e, In e (reservations db) ->
       overlapsRow (res_table_id r)
         (start_time r + duration_minutes r * 60000)
         (start_time r) (start_time r) e = false) ->
    db' = {| restaurants := restaurants db;
             tables := tables db;
             reservations := reservations db ++ [r] |} ->
    transition db db'
| t_cancel (id : Z) :
    db' = {| restaurants := restaurants db;
             tables := tables db;
             reservations := map (cancelRow id) (reservations db) |} ->
    transition db db'.

End Api.

(** ** Two creation requests in flight at once

    A handler gives way to other handlers at each [await].  The one
    interleaving taken up here is the one the check-then-insert sequence is
    open to: a second handler runs between the overlap check of the first
    and its INSERT. *)

Module Race.
Import Schema Db Http.
Import ReservationController.

(** Steps 1 to 5 of [createReservation] on a validated body: the error
    response of the first check that fails, or [None] when all pass. *)
Definition checks (rt : JS.Runtime) (validated : ReservationInput)
    : Handler (option Response) :=
  restaurant <- dbGet (restaurantById (v_restaurant_id validated)) ;;
  match restaurant with
  | None => ret (Some (respond 404 (ErrorMessage RestaurantNotFound)))
  | Some restaurant =>
      table <- dbGet (tableInRestaurant (v_table_id validated)
                                        (v_restaurant_id validated)) ;;
      match table with
      | None => ret (Some (respond 404 (ErrorMessage TableNotFound)))
      | Some table =>
          if v_party_size validated >? capacity table
          then ret (Some (respond 400 (ErrorMessage
                      (CapacityExceeded (capacity table)
                                        (v_party_size validated)))))
          else
            let endTime :=
              v_start_time validated + v_duration_minutes validated * 60000 in
            if negb (isWithinOperatingHours rt restaurant
                       (v_start_time validated) endTime)
            then ret (Some (respond 400 (ErrorMessage
                        (OutOfHours (opening_time restaurant)
                                    (closing_time restaurant)))))
            else
              hasOverlap <- checkForOverlaps (v_table_id validated)
                              (v_start_time validated)
                              (v_duration_minutes validated) ;;
              if (hasOverlap : bool)
              then ret (Some (respond 409 (ErrorMessage AlreadyBooked)))
              else ret None
      end
  end.

(** Step 6: the INSERT and the response. *)
Definition insert (clk : Clock) (validated : ReservationInput)
    : Handler Response :=
  result <- dbRun
              (insertReservation (db_now clk)
                 (v_restaurant_id validated) (v_table_id validated)
                 (v_customer_name validated) (v_phone validated)
                 (v_party_size validated) (v_start_time validated)
                 (v_duration_minutes validated)) ;;
  match result with
  | None => ret (respond 500 (ErrorMessage Unexpected))
  | Some id =>
      ret (respond 201
             (ReservationCreated id validated confirmed
                (JS.toISOString (js_now clk))))
  end.

Definition finishWith (clk : Clock) (validated : ReservationInput)
    (failed : option Response) : Handler Response :=
  match failed with
  | Some response => ret response
  | None => insert clk validated
  end.

(** One handler alone: its checks, then its insert. *)
Definition alone (rt : JS.Runtime) (clk : Clock) (validated : ReservationInput)
    : Handler Response :=
  failed <- checks rt validated ;;
  finishWith clk validated failed.


End Race.

(** ** Notions the specification states its properties with *)

Module Spec.
Import Schema.

(** A 24-hour wall-clock text [HH:MM]: hours 00..23, minutes 00..59. *)
Definition wellFormed24h (s : string) : bool :=
  Pattern.matches_hhmm s
  && match Text.field s 0 2, Text.field s 3 2 with
     | Some h, Some m => (h <=? 23) && (m <=? 59)
     | _, _ => false
     end.

(** A text [YYYY-MM-DD] that names a day of the calendar. *)
Definition isCalendarDate (s : string) : bool :=
  Pattern.matches_date s
  && match Text.field s 0 4, Text.field s 5 2, Text.field s 8 2 with
     | Some y, Some m, Some d =>
         Calendar.validCivil
           {| Calendar.year := y; Calendar.month := m; Calendar.day := d |}
     | _, _, _ => false
     end.

(** The half-open interval [[start, start + duration)] of a reservation,
    in milliseconds. *)
Definition finish (start duration : Z) : Z := start + duration * 60000.

(** Two half-open intervals [[a, b)] and [[c, d)] intersect when [a < d]
    and [c < b]. *)
Definition intersect (a b c d : Z) : Prop := a < d /\ c < b.


Definition active (r : Reservation) : Prop :=
  status r = confirmed \/ status r = pending.



(** The store with the reservations of rowid [id] left out. *)
Definition without (id : Z) (db : DB) : DB :=
  {| restaurants := restaurants db;
     tables := tables db;
     reservations := filter (fun r => negb (res_id r =? id)) (reservations db) |}.




(** An instant with no fraction of a second. *)
Definition wholeSecond (t : Z) : Prop := t mod 1000 = 0.



End Spec.

(** ** A worked example: the restaurant of the README on 2026-01-10 *)

Module Example.
Import Schema Db Http Api.
Local Open Scope string_scope.

(** A runtime on UTC. *)
Definition rt : JS.Runtime := JS.fixedOffsetRuntime 0.

(** 2026-01-09T23:06:40.000Z, read by the database and by the handler. *)
Definition clk : Clock := {| db_now := 1768000000000; js_now := 1768000000000 |}.

(** 2026-01-10T12:00:00.000Z *)
Definition noon : Z := 1768046400000.

Definition restaurantBody (opening closing : string) : jsobject :=
  [("name", JString "The Grill House");
   ("opening_time", JString opening);
   ("closing_time", JString closing)].

Definition tableBody (number cap : Z) : jsobject :=
  [("table_number", JNumber number); ("capacity", JNumber cap)].

Definition booking (table_id party start duration : Z) : jsobject :=
  [("restaurant_id", JNumber 1);
   ("table_id", JNumber table_id);
   ("customer_name", JString "John Doe");
   ("phone", JString "1234567890");
   ("party_size", JNumber party);
   ("start_time", JIsoDateTime start);
   ("duration_minutes", JNumber duration)].

Fixpoint serve (reqs : list Request) (db : DB) : DB :=
  match reqs with
  | [] => db
  | req :: rest => serve rest (after (handle rt clk req) db)
  end.

(** The restaurant, open 10:00 to 22:00, with table 1 for four. *)
Definition setup : list Request :=
  [POST_restaurants (restaurantBody "10:00" "22:00");
   POST_tables (Some "1") (tableBody 1 4)].

Definition grill : DB := Eval vm_compute in serve setup Schema.empty.

(** Then a booking of table 1 from 12:00 to 13:30. *)
Definition grillBooked : DB :=
  Eval vm_compute in
    serve [POST_reservations (booking 1 2 noon 90)] grill.

(** A quarter-hour booking of table 1 from 12:00:00.500, then a second
    one from 12:15:00.000. *)
Definition grillOffBeat : DB :=
  Eval vm_compute in
    serve [POST_reservations (booking 1 2 (noon + 500) 15)] grill.






End Example.

(** * Properties *)

Import Schema Db Http Api.
Import ReservationController RestaurantController.

(** ** Tools *)

Ltac run_handler :=
  unfold answer, after, statements, fresh, bind, ret, dbGet, dbAll, dbRun,
    record, respond in *; cbn [fst snd store sent q_text q_rows c_text c_apply] in *.

Lemma forall_below (P : Z -> bool) (n : nat) :
  forallb P (map Z.of_nat (seq 0 n)) = true ->
  forall z, 0 <= z < Z.of_nat n -> P z = true.
Proof.
  intros H z Hz.
  rewrite forallb_forall in H. apply H.
  apply in_map_iff. exists (Z.to_nat z). split; [lia|].
  apply in_seq. lia.
Qed.

Lemma padStart_twoDigits (n : Z) :
  0 <= n < 100 ->
  JS.padStart (JS.Number_toString n) 2 "0" = Text.twoDigits n.
Proof.
  intros Hn.
  apply String.eqb_eq.
  apply (forall_below
           (fun z => String.eqb (JS.padStart (JS.Number_toString z) 2 "0")
                                (Text.twoDigits z)) 100); [|exact Hn].
  vm_compute. reflexivity.
Qed.

Lemma isDigit_digitChar (d : Z) :
  0 <= d < 10 -> Text.isDigit (Text.digitChar d) = true.
Proof.
  intros Hd.
  apply (forall_below (fun z => Text.isDigit (Text.digitChar z)) 10);
    [|exact Hd].
  vm_compute. reflexivity.
Qed.

Lemma digitValue_digitChar (d : Z) :
  0 <= d < 10 -> Text.digitValue (Text.digitChar d) = d.
Proof.
  intros Hd.
  apply Z.eqb_eq.
  apply (forall_below (fun z => Text.digitValue (Text.digitChar z) =? z) 10);
    [|exact Hd].
  vm_compute. reflexivity.
Qed.

Lemma digit_of (n k : Z) : 0 <= n / k mod 10 < 10.
Proof. apply Z.mod_pos_bound. lia. Qed.

Lemma unit_digit (n : Z) : 0 <= n mod 10 < 10.
Proof. apply Z.mod_pos_bound. lia. Qed.

Create HintDb digits.
#[local] Hint Resolve digit_of unit_digit : digits.

Lemma getHours_range rt t : 0 <= JS.getHours rt t < 24.
Proof. unfold JS.getHours. apply Z.mod_pos_bound. lia. Qed.

Lemma getMinutes_range rt t : 0 <= JS.getMinutes rt t < 60.
Proof. unfold JS.getMinutes. apply Z.mod_pos_bound. lia. Qed.

Lemma hhmm_twoDigits rt t :
  hhmm rt t = Text.concat [Text.twoDigits (JS.getHours rt t); ":"%string;
                           Text.twoDigits (JS.getMinutes rt t)].
Proof.
  unfold hhmm.
  rewrite !padStart_twoDigits; [reflexivity| |].
  - pose proof (getMinutes_range rt t). lia.
  - pose proof (getHours_range rt t). lia.
Qed.

(** Reading back a two-digit field. *)
Lemma twoDigits_value (n : Z) :
  0 <= n < 100 -> 10 * (10 * 0 + (n / 10) mod 10) + n mod 10 = n.
Proof.
  intros Hn.
  rewrite (Z.mod_small (n / 10) 10)
    by (split; [apply Z.div_pos; lia | apply Z.div_lt_upper_bound; lia]).
  pose proof (Z.div_mod n 10). lia.
Qed.

Ltac read_fields :=
  cbn -[Z.mul Z.add Z.div Z.modulo Z.leb Z.ltb Z.eqb];
  rewrite ?isDigit_digitChar by auto with digits;
  cbn -[Z.mul Z.add Z.div Z.modulo Z.leb Z.ltb Z.eqb];
  rewrite ?digitValue_digitChar by auto with digits.

Lemma wellFormed24h_twoDigits (h m : Z) :
  0 <= h < 24 -> 0 <= m < 60 ->
  Spec.wellFormed24h
    (Text.concat [Text.twoDigits h; ":"%string; Text.twoDigits m]) = true.
Proof.
  intros Hh Hm.
  unfold Spec.wellFormed24h, Text.field. read_fields.
  rewrite !twoDigits_value by lia.
  apply andb_true_intro; split; apply Z.leb_le; lia.
Qed.

Lemma wellFormed24h_hhmm rt t : Spec.wellFormed24h (hhmm rt t) = true.
Proof.
  rewrite hhmm_twoDigits.
  apply wellFormed24h_twoDigits.
  - apply getHours_range.
  - apply getMinutes_range.
Qed.

Lemma string_ge_compare (a b : string) :
  JS.string_ge a b = true <-> String.compare a b <> Lt.
Proof.
  unfold JS.string_ge, String.leb.
  rewrite (String.compare_antisym a b).
  destruct (String.compare b a); cbn; split; intros; congruence.
Qed.

Lemma string_le_compare (a b : string) :
  JS.string_le a b = true <-> String.compare a b <> Gt.
Proof.
  unfold JS.string_le, String.leb.
  destruct (String.compare a b); cbn; split; intros; congruence.
Qed.

Lemma div_mod_shift (x a b k : Z) :
  0 < a -> 0 < b -> ((x + k * (a * b)) / a) mod b = (x / a) mod b.
Proof.
  intros Ha Hb.
  replace (x + k * (a * b)) with (x + (k * b) * a) by ring.
  rewrite Z.div_add by lia.
  apply Z_mod_plus_full.
Qed.

Lemma getHours_shift_days off t k :
  JS.getHours (JS.fixedOffsetRuntime off) (t + k * 86400000)
  = JS.getHours (JS.fixedOffsetRuntime off) t.
Proof.
  unfold JS.getHours, JS.localMillis. cbn [JS.utcOffsetMinutes JS.fixedOffsetRuntime].
  replace (t + k * 86400000 + off * 60000)
    with (t + off * 60000 + k * (3600000 * 24)) by lia.
  apply div_mod_shift; lia.
Qed.

Lemma getMinutes_shift_days off t k :
  JS.getMinutes (JS.fixedOffsetRuntime off) (t + k * 86400000)
  = JS.getMinutes (JS.fixedOffsetRuntime off) t.
Proof.
  unfold JS.getMinutes, JS.localMillis. cbn [JS.utcOffsetMinutes JS.fixedOffsetRuntime].
  replace (t + k * 86400000 + off * 60000)
    with (t + off * 60000 + (k * 24) * (60000 * 60)) by lia.
  apply div_mod_shift; lia.
Qed.

(** ** Operating hours *)

(** C3.  [isWithinOperatingHours] reads the local wall clock of the start
    and of the end as zero-padded [HH:MM] texts (hour 00..23 and minute
    00..59 of the local time) and answers true exactly when the start text
    is at or after [opening_time] and the end text at or before
    [closing_time] in the lexicographic order of strings.  The answer
    depends on the two instants through these texts only: instants with the
    same local hour and minute give the same answer, and under a fixed UTC
    offset moving either instant by whole days changes nothing. *)
Theorem isWithinOperatingHours_spec
    (rt : JS.Runtime) (restaurant : Restaurant) (startTime endTime : Z) :
  let start_hhmm := hhmm rt startTime in
  let end_hhmm := hhmm rt endTime in
  (start_hhmm = Text.concat [Text.twoDigits (JS.getHours rt startTime);
                             ":"%string;
                             Text.twoDigits (JS.getMinutes rt startTime)]
   /\ end_hhmm = Text.concat [Text.twoDigits (JS.getHours rt endTime);
                              ":"%string;
                              Text.twoDigits (JS.getMinutes rt endTime)])
  /\ (Spec.wellFormed24h start_hhmm = true
      /\ Spec.wellFormed24h end_hhmm = true)
  /\ (isWithinOperatingHours rt restaurant startTime endTime = true <->
      String.compare start_hhmm (opening_time restaurant) <> Lt
      /\ String.compare end_hhmm (closing_time restaurant) <> Gt)
  /\ (forall startTime' endTime',
        JS.getHours rt startTime' = JS.getHours rt startTime ->
        JS.getMinutes rt startTime' = JS.getMinutes rt startTime ->
        JS.getHours rt endTime' = JS.getHours rt endTime ->
        JS.getMinutes rt endTime' = JS.getMinutes rt endTime ->
        isWithinOperatingHours rt restaurant startTime' endTime'
        = isWithinOperatingHours rt restaurant startTime endTime)
  /\ (forall off days days',
        isWithinOperatingHours (JS.fixedOffsetRuntime off) restaurant
          (startTime + days * 86400000) (endTime + days' * 86400000)
        = isWithinOperatingHours (JS.fixedOffsetRuntime off) restaurant
            startTime endTime).
Proof.
  cbv zeta. repeat split.
  - apply hhmm_twoDigits.
  - apply hhmm_twoDigits.
  - apply wellFormed24h_hhmm.
  - apply wellFormed24h_hhmm.
  - unfold isWithinOperatingHours in H.
    apply andb_prop in H. apply string_ge_compare, H.
  - unfold isWithinOperatingHours in H.
    apply andb_prop in H. apply string_le_compare, H.
  - intros [H1 H2]. unfold isWithinOperatingHours.
    apply andb_true_intro; split.
    + apply string_ge_compare, H1.
    + apply string_le_compare, H2.
  - intros s' e' Hh Hm Hh' Hm'.
    unfold isWithinOperatingHours, hhmm.
    rewrite Hh, Hm, Hh', Hm'. reflexivity.
  - intros off days days'.
    unfold isWithinOperatingHours, hhmm.
    rewrite !getHours_shift_days, !getMinutes_shift_days. reflexivity.
Qed.

(** The restaurant of the README, open 10:00 to 22:00, in a runtime on
    UTC: a booking from 12:00 to 13:30 on 2026-01-10 is within hours, and
    so it is on any other day. *)
Lemma isWithinOperatingHours_spec_witness :
  let r := {| rst_id := 1; rst_name := "The Grill House";
              opening_time := "10:00"; closing_time := "22:00";
              rst_created_at := "2026-01-09 23:06:40" |} in
  isWithinOperatingHours (JS.fixedOffsetRuntime 0) r
    (1768046400000 + 5 * 86400000) (1768051800000 + 5 * 86400000) = true.
Proof.
  intro r.
  destruct (isWithinOperatingHours_spec (JS.fixedOffsetRuntime 0) r
              1768046400000 1768051800000) as (_ & _ & Hiff & _ & Hday).
  rewrite (Hday 0 5 5).
  apply Hiff. split; vm_compute; discriminate.
Defined.

(** ** What a request does to the store *)

Lemma checkForOverlaps_run table_id start dur w :
  checkForOverlaps table_id start dur w
  = (0 <? Z.of_nat
            (List.length
               (filter (overlapsRow table_id (start + dur * 60000) start start)
                       (reservations (store w)))),
     record (SelectOverlapping table_id (start + dur * 60000) start start) w).
Proof. reflexivity. Qed.

Lemma checkForOverlaps_false table_id start dur w :
  fst (checkForOverlaps table_id start dur w) = false <->
  forall e, In e (reservations (store w)) ->
    overlapsRow table_id (start + dur * 60000) start start e = false.
Proof.
  rewrite checkForOverlaps_run. cbn [fst].
  split.
  - intros H e He.
    destruct (overlapsRow table_id (start + dur * 60000) start start e) eqn:Hov;
      [|reflexivity].
    assert (Hin : In e (filter (overlapsRow table_id (start + dur * 60000) start start)
                               (reservations (store w))))
      by (apply filter_In; auto).
    destruct (filter _ _); [destruct Hin|].
    cbn [List.length] in H. apply Z.ltb_ge in H. lia.
  - intros H.
    replace (filter _ _) with (@nil Reservation); [reflexivity|].
    symmetry. induction (reservations (store w)) as [|x l IH]; [reflexivity|].
    cbn [filter]. rewrite (H x) by (left; reflexivity).
    apply IH. intros e He. apply H. right. exact He.
Qed.

Lemma firstFreeTable_store ts slot w :
  store (snd (firstFreeTable ts slot w)) = store w.
Proof.
  revert w. induction ts as [|t ts IH]; intros w; [reflexivity|].
  cbn [firstFreeTable]. unfold bind. rewrite checkForOverlaps_run.
  destruct (0 <? _); [rewrite IH|]; reflexivity.
Qed.

Lemma scanSlots_store rt date ts todo acc w :
  store (snd (scanSlots rt date ts todo acc w)) = store w.
Proof.
  revert acc w. induction todo as [|hm todo IH]; intros acc w; [reflexivity|].
  cbn [scanSlots].
  destruct (JS.Date_parse rt (slotText date hm)) as [slot|]; [|reflexivity].
  unfold bind.
  pose proof (firstFreeTable_store ts slot w) as Hs.
  destruct (firstFreeTable ts slot w) as [[t|] w']; cbn [snd] in Hs;
    rewrite IH; exact Hs.
Qed.

Lemma getAvailableSlots_store rt query db :
  after (getAvailableSlots rt query) db = db.
Proof.
  unfold after, getAvailableSlots.
  destruct (q_restaurant_id query), (q_date query), (q_party_size query);
    try reflexivity.
  destruct (negb (JS.truthyString s)); [reflexivity|].
  run_handler.
  destruct (hd_error _); [|reflexivity].
  destruct (q_rows (tablesByCapacity _ _) _) eqn:Hts; [reflexivity|].
  match goal with
  | |- context [scanSlots ?a ?b ?c ?d ?e ?w] =>
      pose proof (scanSlots_store a b c d e w) as Hs;
      destruct (scanSlots a b c d e w) as [[sl|] w']
  end; cbn [snd fst store] in *; exact Hs.
Qed.

Lemma createRestaurant_transition clk b db :
  transition db (after (createRestaurant clk b) db).
Proof.
  unfold after, createRestaurant, createRestaurantSchema.
  destruct (z_string_min1 _) as [name|]; [|apply t_none; reflexivity].
  unfold z_string_regex.
  destruct (prop b "opening_time") as [[?|o|?|]|]; try (apply t_none; reflexivity).
  destruct (Pattern.matches_hhmm o) eqn:Ho; [|apply t_none; reflexivity].
  destruct (prop b "closing_time") as [[?|c|?|]|]; try (apply t_none; reflexivity).
  destruct (Pattern.matches_hhmm c) eqn:Hc; [|apply t_none; reflexivity].
  run_handler. unfold insertRestaurant. cbn [c_apply c_text].
  destruct (SQLite.datetime_text (db_now clk)) as [stamp|]; [|apply t_none; reflexivity].
  cbn [fst snd store].
  eapply t_restaurant; [| |reflexivity]; assumption.
Qed.

Lemma addTable_transition p b db :
  transition db (after (addTable p b) db).
Proof.
  unfold after, addTable.
  destruct (paramRestaurantId p) as [[n|]|];
    try (apply t_none; reflexivity);
    (destruct (addTableSchema _); [|apply t_none; reflexivity];
     run_handler;
     destruct (hd_error _); [|apply t_none; reflexivity];
     destruct (hd_error _); [apply t_none; reflexivity|];
     unfold insertTable; cbn [c_apply c_text];
     destruct (_ && _); [|apply t_none; reflexivity];
     cbn [fst snd store]; eapply t_table; reflexivity).
Qed.

Lemma createReservation_transition rt clk b db :
  transition db (after (createReservation rt clk b) db).
Proof.
  unfold after, createReservation.
  destruct (createReservationSchema b) as [v|]; [|apply t_none; reflexivity].
  run_handler.
  destruct (hd_error _) as [r|]; [|apply t_none; reflexivity].
  destruct (hd_error _) as [t|]; [|apply t_none; reflexivity].
  destruct (v_party_size v >? capacity t); [apply t_none; reflexivity|].
  destruct (negb _); [apply t_none; reflexivity|].
  match goal with
  | |- context [checkForOverlaps ?a ?b ?c ?w] =>
      pose proof (checkForOverlaps_false a b c w) as Hov;
      rewrite (checkForOverlaps_run a b c w) in *
  end.
  cbn [fst snd store sent] in *.
  destruct (0 <? _); [apply t_none; reflexivity|].
  unfold insertReservation. cbn [c_apply c_text].
  destruct (SQLite.datetime_text (db_now clk)) as [stamp|]; [|apply t_none; reflexivity].
  destruct (_ && _); [|apply t_none; reflexivity].
  cbn [fst snd store].
  eapply t_reservation; [| | |reflexivity]; cbn; try reflexivity.
  apply Hov. reflexivity.
Qed.

Lemma cancelReservation_transition id db :
  transition db (after (cancelReservation id) db).
Proof.
  unfold after, cancelReservation. run_handler.
  destruct (hd_error _); [|apply t_none; reflexivity].
  cbn. eapply t_cancel. reflexivity.
Qed.

Lemma handle_transition rt clk req db :
  transition db (after (handle rt clk req) db).
Proof.
  destruct req; cbn [handle].
  - apply createRestaurant_transition.
  - apply t_none. reflexivity.
  - apply t_none. unfold after, getRestaurant. run_handler.
    destruct (hd_error _); reflexivity.
  - apply addTable_transition.
  - apply createReservation_transition.
  - apply t_none. unfold after, getReservationsByDate.
    destruct (negb _); [reflexivity|]. run_handler.
    destruct (hd_error _); reflexivity.
  - apply t_none. apply getAvailableSlots_store.
  - apply cancelReservation_transition.
Qed.

Lemma reachable_ind_transition rt (P : DB -> Prop) :
  P Schema.empty ->
  (forall db db', reachable rt db -> P db -> transition db db' -> P db') ->
  forall db, reachable rt db -> P db.
Proof.
  intros H0 Hstep db Hr. induction Hr as [|db clk req Hr IH]; [exact H0|].
  eapply Hstep; [exact Hr | exact IH | apply handle_transition].
Qed.

Lemma reachable_serve reqs db :
  reachable Example.rt db -> reachable Example.rt (Example.serve reqs db).
Proof.
  revert db. induction reqs as [|req reqs IH]; intros db Hr; [exact Hr|].
  cbn [Example.serve]. apply IH. apply reach_request. exact Hr.
Qed.

Lemma reachable_grill : reachable Example.rt Example.grill.
Proof.
  change Example.grill with (Example.serve Example.setup Schema.empty).
  apply reachable_serve, reach_empty.
Qed.

(** ** Restaurants *)

(** C8, at an input where the code departs from it.  The creation schema
    checks the shape of the two times only, not that the hour is at most
    23 and the minute at most 59: a restaurant opening at 99:99 and
    closing at 25:61 is accepted with 201 and stored, in a reachable
    state. *)
Lemma createRestaurant_accepts_times_off_the_clock :
  let b := Example.restaurantBody "99:99" "25:61" in
  let db := after (handle Example.rt Example.clk (POST_restaurants b)) Schema.empty in
  code (answer (createRestaurant Example.clk b) Schema.empty) = 201
  /\ reachable Example.rt db
  /\ exists r, In r (restaurants db)
       /\ opening_time r = "99:99"%string
       /\ closing_time r = "25:61"%string
       /\ Spec.wellFormed24h (opening_time r) = false
       /\ Spec.wellFormed24h (closing_time r) = false.
Proof.
  intros b db. split; [vm_compute; reflexivity|].
  split.
  - exact (reach_request Example.rt Schema.empty Example.clk
             (POST_restaurants b) (reach_empty Example.rt)).
  - exists {| rst_id := 1; rst_name := "The Grill House";
              opening_time := "99:99"; closing_time := "25:61";
              rst_created_at := "2026-01-09 23:06:40" |}.
    split; [|repeat split].
    assert (Hdb : restaurants db
                  = [{| rst_id := 1; rst_name := "The Grill House";
                        opening_time := "99:99"; closing_time := "25:61";
                        rst_created_at := "2026-01-09 23:06:40" |}])
      by (vm_compute; reflexivity).
    rewrite Hdb. left. reflexivity.
Qed.

(** What the creation schema does ensure.  In every reachable state each
    restaurant's opening and closing time is a text of two decimal digits,
    a colon and two decimal digits; a creation request is accepted only
    with two such texts, which are stored as they were sent; and no
    request changes or removes a restaurant already stored. *)
Theorem operating_times_shape (rt : JS.Runtime) (db : DB) :
  reachable rt db ->
  (forall r, In r (restaurants db) ->
     Pattern.matches_hhmm (opening_time r) = true
     /\ Pattern.matches_hhmm (closing_time r) = true)
  /\ (forall clk b,
        code (answer (createRestaurant clk b) db) = 201 ->
        exists r,
          restaurants (after (createRestaurant clk b) db) = restaurants db ++ [r]
          /\ prop b "opening_time" = Some (JString (opening_time r))
          /\ prop b "closing_time" = Some (JString (closing_time r))
          /\ Pattern.matches_hhmm (opening_time r) = true
          /\ Pattern.matches_hhmm (closing_time r) = true)
  /\ (forall clk req,
        exists added,
          restaurants (after (handle rt clk req) db) = restaurants db ++ added).
Proof.
  intros Hr. split; [|split].
  - revert db Hr.
    apply (reachable_ind_transition rt
             (fun db => forall r, In r (restaurants db) ->
                Pattern.matches_hhmm (opening_time r) = true
                /\ Pattern.matches_hhmm (closing_time r) = true)).
    + intros r [].
    + intros db db' _ IH Ht r Hin.
      destruct Ht as [-> | r' Ho Hc -> | t -> | r' _ _ _ -> | id ->];
        cbn [restaurants] in Hin; auto.
      apply in_app_or in Hin. destruct Hin as [Hin | [<- | []]]; auto.
  - intros clk b Hcode.
    unfold answer, after, createRestaurant, createRestaurantSchema in *.
    destruct (z_string_min1 _) as [name|]; [|discriminate Hcode].
    unfold z_string_regex in *.
    destruct (prop b "opening_time") as [[?|o|?|]|]; try discriminate Hcode.
    destruct (Pattern.matches_hhmm o) eqn:Ho; [|discriminate Hcode].
    destruct (prop b "closing_time") as [[?|c|?|]|]; try discriminate Hcode.
    destruct (Pattern.matches_hhmm c) eqn:Hc; [|discriminate Hcode].
    run_handler. unfold insertRestaurant in *. cbn [c_apply c_text] in *.
    destruct (SQLite.datetime_text (db_now clk)) as [stamp|];
      [|discriminate Hcode].
    cbn [fst snd store restaurants].
    eexists. split; [reflexivity|]. cbn. auto.
  - intros clk req.
    destruct (handle_transition rt clk req db)
      as [-> | r' Ho Hc -> | t -> | r' _ _ _ -> | id ->];
      cbn [restaurants];
      first [ exists []; symmetry; apply app_nil_r | eexists; reflexivity ].
Qed.

Lemma operating_times_shape_grill :
  reachable Example.rt Example.grill
  /\ forall r, In r (restaurants Example.grill) ->
       Pattern.matches_hhmm (opening_time r) = true
       /\ Pattern.matches_hhmm (closing_time r) = true.
Proof.
  split; [exact reachable_grill|].
  exact (proj1 (operating_times_shape Example.rt Example.grill reachable_grill)).
Defined.

(** ** The response to a creation *)

Lemma datetime_text_length t s :
  SQLite.datetime_text t = Some s -> String.length s = 19%nat.
Proof.
  unfold SQLite.datetime_text.
  destruct (SQLite.inRange _); [|discriminate].
  intros [= <-]. reflexivity.
Qed.

Lemma toISOString_length t :
  String.length (JS.toISOString t) = 24%nat
  \/ String.length (JS.toISOString t) = 27%nat.
Proof.
  unfold JS.toISOString, JS.yearText.
  destruct (_ && _); [left; reflexivity|].
  destruct (_ <? 0); right; reflexivity.
Qed.

Lemma toISOString_not_datetime_text t t' s :
  SQLite.datetime_text t' = Some s -> JS.toISOString t <> s.
Proof.
  intros Hs Heq. apply datetime_text_length in Hs.
  rewrite <- Heq in Hs.
  destruct (toISOString_length t) as [H | H]; rewrite H in Hs; discriminate.
Qed.

(** C6, as the specification states it, fails: the [created_at] of the
    response is the handler's own clock reading in ISO-8601 form, not the
    text the insert stored, even when both clocks show the same instant. *)
Lemma createReservation_created_at_not_the_stored_one :
  let req := Example.booking 1 2 Example.noon 90 in
  exists id validated created_at row,
    answer (createReservation Example.rt Example.clk req) Example.grill
    = respond 201 (ReservationCreated id validated confirmed created_at)
    /\ reservations (after (createReservation Example.rt Example.clk req)
                           Example.grill) = [row]
    /\ res_id row = id
    /\ created_at = "2026-01-09T23:06:40.000Z"%string
    /\ res_created_at row = "2026-01-09 23:06:40"%string
    /\ created_at <> res_created_at row.
Proof.
  intro req. do 4 eexists.
  split; [vm_compute; reflexivity|].
  split; [vm_compute; reflexivity|].
  repeat split. cbn. discriminate.
Qed.

(** C6, amended.  On a successful creation the response carries the
    validated input, the rowid the insert assigned and the status
    [confirmed], each equal to the corresponding field of the one row the
    insert appended.  Its [created_at] is [new Date().toISOString()], read
    by the handler after the insert; the row's [created_at] is the
    database's [datetime('now')], and the two texts are never equal. *)
Theorem createReservation_response_and_row
    (rt : JS.Runtime) (clk : Clock) (req : jsobject) (db : DB)
    (id : Z) (validated : ReservationInput) (st : Status) (created_at : string) :
  answer (createReservation rt clk req) db
  = respond 201 (ReservationCreated id validated st created_at) ->
  exists row,
    reservations (after (createReservation rt clk req) db)
    = reservations db ++ [row]
    /\ createReservationSchema req = Some validated
    /\ res_id row = id
    /\ res_restaurant_id row = v_restaurant_id validated
    /\ res_table_id row = v_table_id validated
    /\ customer_name row = v_customer_name validated
    /\ phone row = v_phone validated
    /\ party_size row = v_party_size validated
    /\ start_time row = v_start_time validated
    /\ duration_minutes row = v_duration_minutes validated
    /\ status row = st
    /\ st = confirmed
    /\ SQLite.datetime_text (db_now clk) = Some (res_created_at row)
    /\ created_at = JS.toISOString (js_now clk)
    /\ created_at <> res_created_at row.
Proof.
  unfold answer, after, createReservation.
  destruct (createReservationSchema req) as [v|]; [|discriminate].
  run_handler.
  destruct (hd_error _) as [r|]; [|discriminate].
  destruct (hd_error _) as [t|]; [|discriminate].
  destruct (v_party_size v >? capacity t); [discriminate|].
  destruct (negb _); [discriminate|].
  rewrite checkForOverlaps_run. cbn [fst snd store sent].
  destruct (0 <? _); [discriminate|].
  unfold insertReservation. cbn [c_apply c_text].
  destruct (SQLite.datetime_text (db_now clk)) as [stamp|] eqn:Hstamp;
    [|discriminate].
  destruct (_ && _); [|discriminate].
  cbn [fst snd store reservations].
  intros [= <- <- <- <-].
  eexists. split; [reflexivity|]. cbn.
  repeat split; try reflexivity.
  eapply toISOString_not_datetime_text, Hstamp.
Qed.

Lemma createReservation_response_and_row_witness :
  exists row,
    reservations (after (createReservation Example.rt Example.clk
                           (Example.booking 1 2 Example.noon 90)) Example.grill)
    = reservations Example.grill ++ [row]
    /\ res_id row = 1
    /\ status row = confirmed
    /\ JS.toISOString (js_now Example.clk) <> res_created_at row.
Proof.
  assert (H : answer (createReservation Example.rt Example.clk
                        (Example.booking 1 2 Example.noon 90)) Example.grill
              = respond 201
                  (ReservationCreated 1
                     {| v_restaurant_id := 1; v_table_id := 1;
                        v_customer_name := "John Doe";
                        v_phone := "1234567890";
                        v_party_size := 2;
                        v_start_time := Example.noon;
                        v_duration_minutes := 90 |}
                     confirmed (JS.toISOString (js_now Example.clk))))
    by (vm_compute; reflexivity).
  destruct (createReservation_response_and_row _ _ _ _ _ _ _ _ H)
    as (row & Hrows & _ & Hid & _ & _ & _ & _ & _ & _ & _ & Hst & _ & _ & _ & Hne).
  exists row.
  split; [exact Hrows|]. split; [exact Hid|]. split; [exact Hst|]. exact Hne.
Defined.

(** ** The calendar and [DATE()] *)

Lemma daysInMonth_range y m : 28 <= Calendar.daysInMonth y m <= 31.
Proof.
  unfold Calendar.daysInMonth.
  destruct (m =? 2); [destruct (Calendar.isLeapYear y); lia|].
  destruct (_ || _); lia.
Qed.

Lemma validCivil_iff c :
  Calendar.validCivil c = true <->
  1 <= Calendar.month c <= 12
  /\ 1 <= Calendar.day c <= Calendar.daysInMonth (Calendar.year c) (Calendar.month c).
Proof.
  unfold Calendar.validCivil.
  rewrite !andb_true_iff, !Z.leb_le. tauto.
Qed.

Lemma validCivil_nextDay c :
  Calendar.validCivil c = true -> Calendar.validCivil (Calendar.nextDay c) = true.
Proof.
  rewrite !validCivil_iff. unfold Calendar.nextDay.
  destruct c as [y m d]. cbn [Calendar.year Calendar.month Calendar.day].
  intros [Hm Hd].
  destruct (Z.ltb_spec d (Calendar.daysInMonth y m));
    [|destruct (Z.ltb_spec m 12)];
    cbn [Calendar.year Calendar.month Calendar.day].
  - lia.
  - pose proof (daysInMonth_range y (m + 1)). lia.
  - pose proof (daysInMonth_range (y + 1) 1). lia.
Qed.

Lemma validCivil_prevDay c :
  Calendar.validCivil c = true -> Calendar.validCivil (Calendar.prevDay c) = true.
Proof.
  rewrite !validCivil_iff. unfold Calendar.prevDay.
  destruct c as [y m d]. cbn [Calendar.year Calendar.month Calendar.day].
  intros [Hm Hd].
  destruct (Z.ltb_spec 1 d); [|destruct (Z.ltb_spec 1 m)];
    cbn [Calendar.year Calendar.month Calendar.day].
  - lia.
  - pose proof (daysInMonth_range y (m - 1)). lia.
  - change (Calendar.daysInMonth (y - 1) 12) with 31. lia.
Qed.

Lemma validCivil_civilOfDays n : Calendar.validCivil (Calendar.civilOfDays n) = true.
Proof.
  destruct n as [|p|p]; cbn [Calendar.civilOfDays].
  - reflexivity.
  - apply Pos.iter_invariant; [intros; apply validCivil_nextDay; assumption | reflexivity].
  - apply Pos.iter_invariant; [intros; apply validCivil_prevDay; assumption | reflexivity].
Qed.

Lemma fourDigits_value (y : Z) :
  0 <= y <= 9999 ->
  10 * (10 * (10 * (10 * 0 + (y / 1000) mod 10) + (y / 100) mod 10)
        + (y / 10) mod 10) + y mod 10 = y.
Proof.
  intros Hy.
  pose proof (Z.div_mod y 10).
  pose proof (Z.div_mod (y / 10) 10).
  pose proof (Z.div_mod (y / 100) 10).
  replace (y / 10 / 10) with (y / 100) in * by (rewrite Z.div_div by lia; reflexivity).
  replace (y / 100 / 10) with (y / 1000) in * by (rewrite Z.div_div by lia; reflexivity).
  rewrite (Z.mod_small (y / 1000) 10)
    by (split; [apply Z.div_pos; lia | apply Z.div_lt_upper_bound; lia]).
  lia.
Qed.

Lemma isCalendarDate_dateText c :
  Calendar.validCivil c = true -> SQLite.inRange c = true ->
  Spec.isCalendarDate (Calendar.dateText c) = true.
Proof.
  intros Hv Hr.
  pose proof (proj1 (validCivil_iff c) Hv) as [Hm Hd].
  pose proof (daysInMonth_range (Calendar.year c) (Calendar.month c)).
  unfold SQLite.inRange in Hr. apply andb_prop in Hr. destruct Hr as [Hy1 Hy2].
  apply Z.leb_le in Hy1, Hy2.
  unfold Spec.isCalendarDate, Calendar.dateText, Pattern.matches_date, Text.field.
  read_fields.
  rewrite fourDigits_value by lia.
  rewrite !twoDigits_value by lia.
  destruct c. exact Hv.
Qed.

Lemma onDate_calendar date r :
  onDate date r = true -> Spec.isCalendarDate date = true.
Proof.
  unfold onDate, SQLite.date.
  destruct (SQLite.inRange _) eqn:Hr; [|discriminate].
  intros H. apply String.eqb_eq in H. subst date.
  apply isCalendarDate_dateText; [apply validCivil_civilOfDays | exact Hr].
Qed.

Lemma filter_none {A : Type} (f : A -> bool) (l : list A) :
  (forall x, In x l -> f x = false) -> filter f l = [].
Proof.
  induction l as [|x l IH]; intros H; [reflexivity|].
  cbn [filter]. rewrite (H x) by (left; reflexivity).
  apply IH. intros y Hy. apply H. right. exact Hy.
Qed.

Lemma hd_error_filter {A : Type} (f : A -> bool) (l : list A) (x : A) :
  In x l -> f x = true -> exists y, hd_error (filter f l) = Some y.
Proof.
  intros Hin Hf.
  assert (H : In x (filter f l)) by (apply filter_In; auto).
  destruct (filter f l) as [|y l']; [destruct H|].
  exists y. reflexivity.
Qed.

Lemma hd_error_filter_none {A : Type} (f : A -> bool) (l : list A) :
  hd_error (filter f l) = None <-> forall x, In x l -> f x = false.
Proof.
  split.
  - intros H x Hin. destruct (f x) eqn:Hf; [|reflexivity].
    destruct (hd_error_filter f l x Hin Hf) as [y Hy]. congruence.
  - intros H. rewrite filter_none by exact H. reflexivity.
Qed.

(** ** Reservations of a day *)

(** C10.  The date guard of [getReservationsByDate] answers 400 exactly
    when the text does not have the shape of four digits, a dash, two
    digits, a dash and two digits.  A text of that shape that names no day
    of the calendar (month 13, day 40) passes the guard, and for an
    existing restaurant the answer is 200 with the empty list: [DATE()]
    only ever yields the text of a calendar day.  Nothing is written. *)
Theorem getReservationsByDate_guard_is_textual
    (db : DB) (restaurant_id : Z) (date : string) :
  (answer (getReservationsByDate restaurant_id date) db
   = respond 400 (ErrorMessage BadDateFormat)
   <-> Pattern.matches_date date = false)
  /\ (Pattern.matches_date date = true ->
      Spec.isCalendarDate date = false ->
      (exists r, In r (restaurants db) /\ rst_id r = restaurant_id) ->
      answer (getReservationsByDate restaurant_id date) db
      = respond 200 (ReservationList [])
      /\ after (getReservationsByDate restaurant_id date) db = db).
Proof.
  unfold answer, after, getReservationsByDate. split.
  - destruct (Pattern.matches_date date); cbn [negb].
    + run_handler. destruct (hd_error _); split; discriminate.
    + split; reflexivity.
  - intros Hshape Hcal (r & Hin & Hid). rewrite Hshape. cbn [negb].
    run_handler. cbn [restaurantById q_rows].
    destruct (hd_error_filter (fun r0 => rst_id r0 =? restaurant_id)
                (restaurants db) r Hin) as [r' ->];
      [apply Z.eqb_eq; exact Hid|].
    cbn [fst snd store]. split; [|reflexivity].
    unfold reservationsOfDay. cbn [q_rows].
    rewrite filter_none; [reflexivity|].
    intros x _. apply andb_false_intro2.
    destruct (onDate date x) eqn:Hon; [|reflexivity].
    apply onDate_calendar in Hon. congruence.
Qed.

Lemma getReservationsByDate_guard_is_textual_witness :
  Pattern.matches_date "2026-13-40" = true
  /\ Spec.isCalendarDate "2026-13-40" = false
  /\ answer (getReservationsByDate 1 "2026-13-40") Example.grillBooked
     = respond 200 (ReservationList []).
Proof.
  split; [reflexivity|]. split; [reflexivity|].
  refine (proj1 (proj2 (getReservationsByDate_guard_is_textual
                          Example.grillBooked 1 "2026-13-40")
                   eq_refl eq_refl _)).
  eexists. split; [left; reflexivity | reflexivity].
Defined.

(** ** Adding a table *)


Lemma truthyString_nonempty (s : string) :
  s <> EmptyString -> JS.truthyString s = true.
Proof. destruct s; [congruence | reflexivity]. Qed.



(** ** Cancelling *)

Lemma res_id_cancelRow id r : res_id (cancelRow id r) = res_id r.
Proof. unfold cancelRow. destruct (res_id r =? id); reflexivity. Qed.

Lemma cancelRow_idem id r : cancelRow id (cancelRow id r) = cancelRow id r.
Proof.
  unfold cancelRow. destruct (res_id r =? id) eqn:H; cbn [res_id setStatus];
    rewrite H; reflexivity.
Qed.

Lemma cancelRow_other id r : res_id r <> id -> cancelRow id r = r.
Proof.
  intros H. unfold cancelRow.
  destruct (Z.eqb_spec (res_id r) id); [contradiction | reflexivity].
Qed.

Lemma cancelReservation_run id db :
  cancelReservation id (fresh db)
  = match hd_error (filter (fun r => res_id r =? id) (reservations db)) with
    | None =>
        (respond 404 (ErrorMessage ReservationNotFound),
         {| store := db; sent := [SelectReservationById id] |})
    | Some _ =>
        (respond 200 (ReservationCancelled id),
         {| store := {| restaurants := restaurants db;
                        tables := tables db;
                        reservations := map (cancelRow id) (reservations db) |};
            sent := [SelectReservationById id;
                     UpdateReservationStatus cancelled id] |})
    end.
Proof.
  unfold cancelReservation. run_handler.
  cbn [reservationById q_rows q_text].
  destruct (hd_error _); reflexivity.
Qed.

Lemma overlapsRow_cancelled table_id e s s' r :
  status r = cancelled -> overlapsRow table_id e s s' r = false.
Proof.
  intros H. unfold overlapsRow. rewrite H. cbn [isActive].
  rewrite andb_false_r. reflexivity.
Qed.

Lemma overlapsRow_cancelRow table_id e s s' id r :
  overlapsRow table_id e s s' (cancelRow id r)
  = negb (res_id r =? id) && overlapsRow table_id e s s' r.
Proof.
  unfold cancelRow. destruct (res_id r =? id); cbn [negb andb]; [|reflexivity].
  apply overlapsRow_cancelled. reflexivity.
Qed.

Lemma filter_overlaps_cancelled table_id e s s' id l :
  List.length (filter (overlapsRow table_id e s s') (map (cancelRow id) l))
  = List.length
      (filter (overlapsRow table_id e s s')
              (filter (fun r => negb (res_id r =? id)) l)).
Proof.
  induction l as [|r l IH]; [reflexivity|].
  cbn [map filter]. rewrite overlapsRow_cancelRow.
  destruct (res_id r =? id); cbn [negb andb filter]; [exact IH|].
  destruct (overlapsRow table_id e s s' r); cbn [List.length]; rewrite IH;
    reflexivity.
Qed.

(** C7.  [cancelReservation] answers 404 exactly when no reservation has
    the given rowid, and then leaves the store as it was.  Otherwise it
    answers 200 and sets the status of that reservation to [cancelled]
    whatever it was before, touching no other field and no other row; no
    row is removed.  Cancelling again succeeds and changes nothing more.
    After a cancellation the cancelled row is never among the rows the
    overlap query returns, for its own table and time range or any other:
    the overlap check answers as if the row were absent, and reports no
    conflict when no other reservation is in the way. *)
Theorem cancelReservation_spec (db : DB) (id : Z) :
  let db' := after (cancelReservation id) db in
  (answer (cancelReservation id) db
   = respond 404 (ErrorMessage ReservationNotFound)
   <-> forall r, In r (reservations db) -> res_id r <> id)
  /\ ((forall r, In r (reservations db) -> res_id r <> id) -> db' = db)
  /\ ((exists r, In r (reservations db) /\ res_id r = id) ->
      answer (cancelReservation id) db = respond 200 (ReservationCancelled id)
      /\ answer (cancelReservation id) db' = respond 200 (ReservationCancelled id))
  /\ (reservations db' = map (cancelRow id) (reservations db)
      /\ restaurants db' = restaurants db /\ tables db' = tables db)
  /\ (forall r, In r (reservations db') -> res_id r = id ->
      (exists r0, In r0 (reservations db) /\ r = setStatus cancelled r0))
  /\ map res_id (reservations db') = map res_id (reservations db)
  /\ after (cancelReservation id) db' = db'
  /\ (forall r table_id endDate startDate startDate',
        In r (reservations db') -> res_id r = id ->
        ~ In r (q_rows (overlapping table_id endDate startDate startDate') db'))
  /\ (forall table_id start duration,
        answer (checkForOverlaps table_id start duration) db'
        = answer (checkForOverlaps table_id start duration) (Spec.without id db))
  /\ (forall table_id start duration,
        (forall e, In e (reservations db) -> res_id e <> id ->
           overlapsRow table_id (start + duration * 60000) start start e = false) ->
        answer (checkForOverlaps table_id start duration) db' = false).
Proof.
  cbv zeta.
  assert (Hwithout : forall table_id start duration,
            (forall e, In e (reservations db) -> res_id e <> id ->
               overlapsRow table_id (start + duration * 60000) start start e
               = false) ->
            answer (checkForOverlaps table_id start duration)
                   (Spec.without id db) = false).
  { intros table_id start duration H.
    apply (proj2 (checkForOverlaps_false table_id start duration
                    (fresh (Spec.without id db)))).
    cbn [store fresh Spec.without reservations].
    intros e He. apply filter_In in He. destruct He as [He Hid].
    apply H; [exact He|]. apply Z.eqb_neq, negb_true_iff, Hid. }
  unfold answer, after in *. rewrite (cancelReservation_run id db).
  assert (Hfound : hd_error (filter (fun r => res_id r =? id) (reservations db)) = None
                   <-> forall r, In r (reservations db) -> res_id r <> id).
  { rewrite hd_error_filter_none. split; intros H r Hin.
    - apply Z.eqb_neq, H, Hin.
    - apply Z.eqb_neq, H, Hin. }
  assert (Hmap : (forall r, In r (reservations db) -> res_id r <> id) ->
                 map (cancelRow id) (reservations db) = reservations db).
  { intros H. rewrite <- (map_id (reservations db)) at 2.
    apply map_ext_in. intros r Hin. apply cancelRow_other, H, Hin. }
  destruct (hd_error (filter (fun r => res_id r =? id) (reservations db)))
    as [r0|] eqn:Hhd; cbn [fst snd store].
  - assert (Hex : exists r, In r (reservations db) /\ res_id r = id).
    { assert (Hin : In r0 (filter (fun r => res_id r =? id) (reservations db)))
        by (destruct (filter _ _); [discriminate | injection Hhd as ->; left; reflexivity]).
      apply filter_In in Hin. exists r0. split; [tauto|]. apply Z.eqb_eq. tauto. }
    assert (Hhd' : exists r1, hd_error (filter (fun r => res_id r =? id)
                                          (map (cancelRow id) (reservations db)))
                              = Some r1).
    { destruct Hex as (r & Hin & Hid).
      apply (hd_error_filter _ _ (cancelRow id r)).
      - apply in_map. exact Hin.
      - rewrite res_id_cancelRow. apply Z.eqb_eq. exact Hid. }
    destruct Hhd' as [r1 Hhd'].
    rewrite cancelReservation_run. cbn [reservations restaurants tables].
    rewrite Hhd'. cbn [fst snd store].
    split; [split; [discriminate|]|].
    { intros H. apply Hfound in H. discriminate. }
    split.
    { intros H. apply Hfound in H. discriminate. }
    split; [intros _; split; reflexivity|].
    split; [repeat split|].
    split.
    { intros r Hin Hid. apply in_map_iff in Hin.
      destruct Hin as (r' & <- & Hin'). exists r'. split; [exact Hin'|].
      rewrite res_id_cancelRow in Hid. unfold cancelRow.
      rewrite (proj2 (Z.eqb_eq _ _) Hid). reflexivity. }
    split.
    { rewrite map_map. apply map_ext. intros r. apply res_id_cancelRow. }
    split.
    { rewrite map_map. f_equal. apply map_ext. intros r. apply cancelRow_idem. }
    split.
    { intros r table_id endDate startDate startDate' Hin Hid Hq.
      cbn [overlapping q_rows reservations] in Hq.
      apply filter_In in Hq. destruct Hq as [_ Hq].
      apply in_map_iff in Hin. destruct Hin as (r' & <- & _).
      rewrite res_id_cancelRow in Hid.
      rewrite overlapsRow_cancelRow in Hq.
      rewrite (proj2 (Z.eqb_eq _ _) Hid) in Hq. discriminate. }
    assert (Hsame : forall table_id start duration,
              fst (checkForOverlaps table_id start duration
                     (fresh {| restaurants := restaurants db;
                               tables := tables db;
                               reservations := map (cancelRow id) (reservations db) |}))
              = fst (checkForOverlaps table_id start duration
                       (fresh (Spec.without id db)))).
    { intros table_id start duration.
      rewrite !checkForOverlaps_run.
      cbn [fst store fresh Spec.without reservations].
      rewrite filter_overlaps_cancelled. reflexivity. }
    split; [exact Hsame|].
    intros table_id start duration H.
    rewrite Hsame. apply Hwithout, H.
  - pose proof (proj1 Hfound eq_refl) as Hnone.
    rewrite cancelReservation_run, Hhd. cbn [fst snd store].
    split; [split; [intros _; exact Hnone | reflexivity]|].
    split; [reflexivity|].
    split.
    { intros (r & Hin & Hid). exfalso. exact (Hnone r Hin Hid). }
    split; [rewrite Hmap by exact Hnone; repeat split|].
    split.
    { intros r Hin Hid. exfalso. exact (Hnone r Hin Hid). }
    split; [reflexivity|].
    split; [reflexivity|].
    split.
    { intros r ? ? ? ? Hin Hid. exfalso. exact (Hnone r Hin Hid). }
    assert (Hsame : forall table_id start duration,
              fst (checkForOverlaps table_id start duration (fresh db))
              = fst (checkForOverlaps table_id start duration
                       (fresh (Spec.without id db)))).
    { intros table_id start duration.
      rewrite !checkForOverlaps_run.
      cbn [fst store fresh Spec.without reservations].
      rewrite (filter_ext_in (fun r => negb (res_id r =? id)) (fun _ => true)).
      + rewrite filter_true. reflexivity.
      + intros r Hin. apply negb_true_iff, Z.eqb_neq, Hnone, Hin. }
    split; [exact Hsame|].
    intros table_id start duration H.
    rewrite Hsame. apply Hwithout, H.
Qed.

(** Table 1 is booked from 12:00 to 13:30.  Before the cancellation the
    overlap check for that very range reports a conflict; after it, none. *)
Lemma cancelReservation_spec_witness :
  let db' := after (cancelReservation 1) Example.grillBooked in
  answer (checkForOverlaps 1 Example.noon 90) Example.grillBooked = true
  /\ answer (cancelReservation 1) Example.grillBooked
     = respond 200 (ReservationCancelled 1)
  /\ answer (checkForOverlaps 1 Example.noon 90) db' = false
  /\ map res_id (reservations db') = map res_id (reservations Example.grillBooked).
Proof.
  intro db'.
  destruct (cancelReservation_spec Example.grillBooked 1)
    as (_ & _ & Hok & _ & _ & Hids & _ & _ & _ & Hfree).
  split; [vm_compute; reflexivity|].
  split.
  - apply Hok. eexists. split; [left; reflexivity | reflexivity].
  - split; [|exact Hids].
    apply Hfree. intros e [<- | []] Hid. contradiction Hid. reflexivity.
Defined.

(** ** Creating a reservation *)







(** ** The overlap check *)

Lemma div_whole_second (t k : Z) :
  0 < k -> (1000 * (t / 1000)) / (1000 * k) = t / (1000 * k).
Proof.
  intros Hk.
  rewrite Z.div_mul_cancel_l by lia.
  rewrite <- Z.div_div by lia. reflexivity.
Qed.

(** The text of [datetime(x)] is that of the whole second [x] falls in. *)
Lemma datetime_text_drops_fraction (t : Z) :
  SQLite.datetime_text t = SQLite.datetime_text (1000 * SQLite.datetime t).
Proof.
  unfold SQLite.datetime_text, SQLite.datetime, Calendar.timeText,
    Calendar.dayNumber, Calendar.hourOfDay, Calendar.minuteOfHour,
    Calendar.secondOfMinute.
  change 86400000 with (1000 * 86400).
  change 3600000 with (1000 * 3600).
  change 60000 with (1000 * 60).
  rewrite !div_whole_second by lia.
  replace (1000 * (t / 1000) / 1000) with (t / 1000)
    by (rewrite Z.mul_comm, Z.div_mul by lia; reflexivity).
  reflexivity.
Qed.

Lemma datetime_add_minutes (t n : Z) :
  SQLite.datetime (t + n * 60000) = SQLite.datetime t + 60 * n.
Proof.
  unfold SQLite.datetime.
  replace (t + n * 60000) with (t + (60 * n) * 1000) by lia.
  apply Z.div_add. lia.
Qed.

Lemma datetime_wholeSecond (t : Z) :
  Spec.wholeSecond t -> t = 1000 * SQLite.datetime t.
Proof.
  unfold Spec.wholeSecond, SQLite.datetime. intros H.
  pose proof (Z.div_mod t 1000). lia.
Qed.

Lemma isActive_active (r : Reservation) :
  isActive (status r) = true <-> Spec.active r.
Proof.
  unfold Spec.active. destruct (status r); cbn; split; intros H;
    try reflexivity; try discriminate; auto;
    destruct H; discriminate.
Qed.

(** What one row contributes to the overlap query: it is an active row
    of the table whose interval meets the requested one once every start
    is taken at its whole second, or which starts in the same second. *)
Lemma overlapsRow_at_seconds table_id start duration (r : Reservation) :
  overlapsRow table_id (start + duration * 60000) start start r = true <->
  res_table_id r = table_id /\ Spec.active r
  /\ (Spec.intersect
        (SQLite.datetime (start_time r))
        (SQLite.datetime_plus_minutes (start_time r) (duration_minutes r))
        (SQLite.datetime start)
        (SQLite.datetime_plus_minutes start duration)
      \/ SQLite.datetime (start_time r) = SQLite.datetime start).
Proof.
  unfold overlapsRow, Spec.intersect, SQLite.datetime_plus_minutes.
  rewrite datetime_add_minutes.
  rewrite !andb_true_iff, orb_true_iff, andb_true_iff.
  rewrite Z.eqb_eq, Z.ltb_lt, Z.gtb_ltb, Z.ltb_lt, Z.eqb_eq.
  rewrite isActive_active. tauto.
Qed.

(** On whole-second starts and positive durations this is the
    intersection of the two half-open intervals. *)
Lemma overlapsRow_wholeSecond table_id start duration (r : Reservation) :
  0 < duration -> 0 < duration_minutes r ->
  Spec.wholeSecond start -> Spec.wholeSecond (start_time r) ->
  overlapsRow table_id (start + duration * 60000) start start r = true <->
  res_table_id r = table_id /\ Spec.active r
  /\ Spec.intersect
       (start_time r) (Spec.finish (start_time r) (duration_minutes r))
       start (Spec.finish start duration).
Proof.
  intros Hd Hdr Hs Hr. rewrite overlapsRow_at_seconds.
  apply datetime_wholeSecond in Hs, Hr.
  unfold Spec.intersect, Spec.finish, SQLite.datetime_plus_minutes.
  split; intros (Ht & Ha & H); (split; [exact Ht|split; [exact Ha|]]); lia.
Qed.

Lemma checkForOverlaps_true table_id start duration db :
  answer (checkForOverlaps table_id start duration) db = true <->
  exists r, In r (reservations db)
    /\ overlapsRow table_id (start + duration * 60000) start start r = true.
Proof.
  unfold answer. rewrite checkForOverlaps_run. cbn [fst store fresh].
  split.
  - intros H.
    destruct (filter _ _) as [|r l] eqn:Hf; [discriminate H|].
    exists r. apply filter_In. rewrite Hf. left. reflexivity.
  - intros (r & Hin & Hov).
    assert (H : In r (filter (overlapsRow table_id (start + duration * 60000)
                                start start) (reservations db)))
      by (apply filter_In; auto).
    destruct (filter _ _); [destruct H|].
    cbn [List.length]. apply Z.ltb_lt. lia.
Qed.

(** What [checkForOverlaps] computes: a conflict is an active reservation
    of the table whose interval meets the requested one with every start
    taken at its whole second, or which starts in the same second.  On
    whole-second starts and positive durations that is the intersection of
    the half-open intervals.  The check only reads: one SELECT is sent and
    the store is left as it was. *)
Lemma checkForOverlaps_at_seconds table_id start duration db :
  (answer (checkForOverlaps table_id start duration) db = true <->
   exists r, In r (reservations db)
     /\ res_table_id r = table_id /\ Spec.active r
     /\ (Spec.intersect
           (SQLite.datetime (start_time r))
           (SQLite.datetime_plus_minutes (start_time r) (duration_minutes r))
           (SQLite.datetime start)
           (SQLite.datetime_plus_minutes start duration)
         \/ SQLite.datetime (start_time r) = SQLite.datetime start))
  /\ (0 < duration -> Spec.wholeSecond start ->
      (forall r, In r (reservations db) ->
         0 < duration_minutes r /\ Spec.wholeSecond (start_time r)) ->
      (answer (checkForOverlaps table_id start duration) db = true <->
       exists r, In r (reservations db)
         /\ res_table_id r = table_id /\ Spec.active r
         /\ Spec.intersect
              (start_time r) (Spec.finish (start_time r) (duration_minutes r))
              start (Spec.finish start duration)))
  /\ after (checkForOverlaps table_id start duration) db = db
  /\ statements (checkForOverlaps table_id start duration) db
     = [SelectOverlapping table_id (start + duration * 60000) start start].
Proof.
  split; [|split; [|split; reflexivity]].
  - rewrite checkForOverlaps_true.
    split; intros (r & Hin & H); exists r; (split; [exact Hin|]);
      apply overlapsRow_at_seconds; exact H.
  - intros Hd Hs Hrows. rewrite checkForOverlaps_true.
    split; intros (r & Hin & H); exists r; (split; [exact Hin|]);
      destruct (Hrows r Hin) as [Hdr Hr];
      apply (overlapsRow_wholeSecond table_id start duration r Hd Hdr Hs Hr);
      exact H.
Qed.

(** C2, at an input where the code departs from it.  Table 1 holds a
    confirmed reservation from 12:00:00.500 for 15 minutes, which ends at
    12:15:00.500.  A request for 12:15:00.000, 15 minutes, meets it in the
    half-open sense ([existing.start < start + duration] and
    [existing.start + existing.duration > start]), yet [checkForOverlaps]
    answers false: [datetime(start_time)] reads ['2026-01-10 12:00:00'],
    fifteen minutes later is ['2026-01-10 12:15:00'], and that is not
    greater than the [datetime()] of the requested start. *)
Lemma checkForOverlaps_misses_overlap_within_a_second :
  let start := Example.noon + 15 * 60000 in
  answer (checkForOverlaps 1 start 15) Example.grillOffBeat = false
  /\ exists existing,
       In existing (reservations Example.grillOffBeat)
       /\ res_table_id existing = 1
       /\ status existing = confirmed
       /\ JS.toISOString (start_time existing) = "2026-01-10T12:00:00.500Z"%string
       /\ duration_minutes existing = 15
       /\ JS.toISOString start = "2026-01-10T12:15:00.000Z"%string
       /\ start_time existing < start + 15 * 60000
       /\ start_time existing + duration_minutes existing * 60000 > start
       /\ start_time existing <> start
       /\ SQLite.datetime_text (start_time existing)
          = Some "2026-01-10 12:00:00"%string
       /\ SQLite.datetime_text
            (1000 * SQLite.datetime_plus_minutes (start_time existing)
                      (duration_minutes existing))
          = Some "2026-01-10 12:15:00"%string
       /\ SQLite.datetime_text start = Some "2026-01-10 12:15:00"%string.
Proof.
  intro start. split; [vm_compute; reflexivity|].
  eexists. split; [left; reflexivity|].
  cbn [res_table_id status start_time duration_minutes].
  unfold start, Example.noon.
  split; [reflexivity|]. split; [reflexivity|].
  split; [vm_compute; reflexivity|]. split; [reflexivity|].
  split; [vm_compute; reflexivity|].
  split; [lia|]. split; [lia|]. split; [lia|].
  split; [vm_compute; reflexivity|].
  split; vm_compute; reflexivity.
Qed.

(** ** No double booking *)









(** ** The check-then-insert race *)

(** [createReservation] on a body that validates is its five checks
    followed by its insert. *)
Lemma createReservation_is_checks_then_insert rt clk req validated w :
  createReservationSchema req = Some validated ->
  createReservation rt clk req w = Race.alone rt clk validated w.
Proof.
  intros Hv. unfold createReservation, Race.alone, Race.checks. rewrite Hv.
  unfold bind.
  destruct (dbGet (restaurantById _) w) as [[r|] w1]; [|reflexivity].
  destruct (dbGet (tableInRestaurant _ _) w1) as [[t|] w2]; [|reflexivity].
  destruct (v_party_size validated >? capacity t); [reflexivity|].
  destruct (negb _); [reflexivity|].
  destruct (checkForOverlaps _ _ _ w2) as [[|] w3]; reflexivity.
Qed.





(** ** Availability *)

Section OrderBy.
Context {A : Type} (key : A -> Z).







End OrderBy.









Lemma scanSlots_invalid rt date ts todo acc w :
  (exists hm, In hm todo /\ JS.Date_parse rt (slotText date hm) = None) ->
  fst (scanSlots rt date ts todo acc w) = None.
Proof.
  revert acc w. induction todo as [|hm todo IH]; intros acc w (bad & Hin & Hbad);
    [destruct Hin|].
  cbn [scanSlots].
  destruct (JS.Date_parse rt (slotText date hm)) as [slot|] eqn:Hp;
    [|reflexivity].
  assert (Hrest : exists hm', In hm' todo
                    /\ JS.Date_parse rt (slotText date hm') = None).
  { destruct Hin as [<- | Hin]; [congruence|]. exists bad. auto. }
  unfold bind. destruct (firstFreeTable ts slot w) as [[t|] w'];
    apply IH; exact Hrest.
Qed.




(** With an eligible table, a slot text that is no valid date makes
    [slotDate.toISOString()] throw, and the request is answered 500. *)
Lemma getAvailableSlots_invalid_slot
    (rt : JS.Runtime) (db : DB) (restaurant_id party : Z) (date : string)
    (restaurant : Restaurant) (openHour closeHour : Z) :
  date <> EmptyString ->
  hd_error (q_rows (restaurantById restaurant_id) db) = Some restaurant ->
  q_rows (tablesByCapacity restaurant_id party) db <> [] ->
  hourOf (opening_time restaurant) = Some openHour ->
  hourOf (closing_time restaurant) = Some closeHour ->
  (exists hm, In hm (slotClock openHour closeHour)
     /\ JS.Date_parse rt (slotText date hm) = None) ->
  answer (getAvailableSlots rt
            {| q_restaurant_id := Some restaurant_id;
               q_date := Some date;
               q_party_size := Some party |}) db
  = respond 500 (ErrorMessage Unexpected).
Proof.
  intros Hdate Hrest Hne Ho Hc Hbad.
  unfold answer, getAvailableSlots.
  cbn [q_restaurant_id q_date q_party_size].
  rewrite (truthyString_nonempty date Hdate). cbn [negb].
  run_handler. rewrite Hrest. cbn [fst snd store sent app].
  destruct (q_rows (tablesByCapacity restaurant_id party) db) as [|t0 ts];
    [contradiction Hne; reflexivity|].
  rewrite Ho, Hc.
  match goal with
  | |- context [scanSlots ?a ?b ?c ?d ?e ?w] =>
      pose proof (scanSlots_invalid a b c d e w Hbad) as Hr;
      destruct (scanSlots a b c d e w) as [slots w']
  end.
  cbn [fst] in Hr. subst slots. reflexivity.
Qed.

